(** * Single-sign-on gateway: PKCE login, token cache, JWT middleware

    A shallow embedding of the relying-party code of the repository
    ([innogeotech/sso/utils.py], [innogeotech/sso/avanpost.py],
    [igt/sso/views.py], [igt/sso/middleware.py]) and the properties of it
    that the specification states.

    Conventions.
    - A Python [str] and a Python [bytes] are both a Rocq [string] (a
      sequence of 8-bit characters); a [str] is represented by its UTF-8
      encoding, so [.encode('utf-8')] and [.decode('utf-8')] are the
      identity on the representation.
    - [None] where a string is expected is [option string]'s [None].
    - An [async] function is a computation in the monad [M]: it threads the
      state of the outside world (cache, request context, log of outbound
      calls) and either returns or raises. *)

From Stdlib Require Import ZArith String Ascii List Bool Lia.
From Stdlib Require DecimalString.
From stdpp Require Import base gmap strings list.

Set Warnings "-register-all".
Open Scope string_scope.
Open Scope Z_scope.

(** ** Outcomes: a value or a raised exception *)

(** JSON values as Python sees them after [json.loads].  Numbers are the
    integers: a number with a fraction or an exponent (a Python [float])
    has no constructor here, and no statement below speaks of one. *)
Inductive pyval :=
| PyNone
| PyBool (b : bool)
| PyInt (z : Z)
| PyStr (s : string)
| PyList (l : list pyval)
| PyDict (d : list (string * pyval)).

(** The exception classes the code raises or lets through. *)
Inductive exn :=
| HTTPFound (location : string)
| HTTPBadRequest (reason : pyval)
| HTTPUnauthorized (reason : string)
| HTTPForbidden (reason : string)
| TokenAlreadyRevoked
| InvalidTokenError (msg : string)
| ClientResponseError (status : Z)
| ClientError (msg : string)
| ReplyError (msg : string)
| KeyError (key : pyval)
| JSONDecodeError (msg : string)
| ValueError (msg : string)
| TypeError (msg : string)
| AttributeError (msg : string)
| AssertionError
| OtherError (msg : string)
| OutOfModel (what : string).

Inductive outcome (A : Type) :=
| Ret (a : A)
| Raise (e : exn).
Arguments Ret {A} a.
Arguments Raise {A} e.

Definition obind {A B} (o : outcome A) (k : A -> outcome B) : outcome B :=
  match o with
  | Ret a => k a
  | Raise e => Raise e
  end.

(** ** Strings *)

Module Str.

Definition code (c : ascii) : Z := Z.of_N (N_of_ascii c).
Definition chr (z : Z) : ascii := ascii_of_N (Z.to_N (z mod 256)).

Fixpoint filter (p : ascii -> bool) (s : string) : string :=
  match s with
  | EmptyString => EmptyString
  | String c r => if p c then String c (filter p r) else filter p r
  end.

Fixpoint forallb (p : ascii -> bool) (s : string) : bool :=
  match s with
  | EmptyString => true
  | String c r => p c && forallb p r
  end.

Definition is_upper (c : ascii) : bool := (65 <=? code c) && (code c <=? 90).
Definition is_lower (c : ascii) : bool := (97 <=? code c) && (code c <=? 122).
Definition is_digit (c : ascii) : bool := (48 <=? code c) && (code c <=? 57).
Definition is_alnum (c : ascii) : bool := is_upper c || is_lower c || is_digit c.

(** [s.replace(c, '')] for a one-character [c]. *)
Definition remove (c : ascii) (s : string) : string :=
  filter (fun x => negb (Ascii.eqb x c)) s.

(** [re.sub('[^a-zA-Z0-9]+', '', s)]. *)
Definition sub_non_alnum (s : string) : string := filter is_alnum s.

(** [str(x)] for [x] a [str] or [None]. *)
Definition of_opt (x : option string) : string :=
  match x with
  | Some s => s
  | None => "None"
  end.

(** Truth value of a [str] or [None]. *)
Definition truthy (x : option string) : bool :=
  match x with
  | Some EmptyString | None => false
  | Some _ => true
  end.

Definition is_ident_start (c : ascii) : bool :=
  is_upper c || is_lower c || Ascii.eqb c "_".
Definition is_ident_char (c : ascii) : bool :=
  is_alnum c || Ascii.eqb c "_".
Definition is_ident (s : string) : bool :=
  match s with
  | EmptyString => false
  | String c r => is_ident_start c && forallb is_ident_char r
  end.

Fixpoint assoc {V} (k : string) (l : list (string * V)) : option V :=
  match l with
  | [] => None
  | (k', v) :: r => if String.eqb k k' then Some v else assoc k r
  end.

(** One replacement field of [str.format].  Only fields that are a plain
    keyword name are modelled, which is all the templates of the
    repository use; anything else (positional, attribute, index,
    conversion or format-spec fields) is reported as [OutOfModel]. *)
Definition format_field (name : string) (kw : list (string * string))
  : outcome string :=
  if is_ident name then
    match assoc name kw with
    | Some v => Ret v
    | None => Raise (KeyError (PyStr name))
    end
  else Raise (OutOfModel "format field").

(** [template.format] with keyword arguments [kw]: literal text, the escapes [{{] and [}}], and
    [{name}] fields.  [field] is the text of the field being read, if the
    scan is inside one. *)
Fixpoint format_go (s : string) (field : option string)
    (kw : list (string * string)) : outcome string :=
  match s with
  | EmptyString =>
      match field with
      | None => Ret EmptyString
      | Some _ => Raise (ValueError "expected '}' before end of string")
      end
  | String c rest =>
      match field with
      | Some name =>
          if Ascii.eqb c "}" then
            obind (format_field name kw) (fun v =>
            obind (format_go rest None kw) (fun r => Ret (v ++ r)))
          else format_go rest (Some (name ++ String c EmptyString)) kw
      | None =>
          if Ascii.eqb c "{" then
            match rest with
            | String "{" rest' =>
                obind (format_go rest' None kw) (fun r => Ret (String "{" r))
            | _ => format_go rest (Some EmptyString) kw
            end
          else if Ascii.eqb c "}" then
            match rest with
            | String "}" rest' =>
                obind (format_go rest' None kw) (fun r => Ret (String "}" r))
            | _ => Raise (ValueError "Single '}' encountered in format string")
            end
          else obind (format_go rest None kw) (fun r => Ret (String c r))
      end
  end.

Definition format (template : string) (kw : list (string * string))
  : outcome string :=
  format_go template None kw.

End Str.

(** ** [base64.urlsafe_b64encode] (RFC 4648, section 5) *)

Module Base64.

Definition alphabet : string :=
  "ABCDEFGHIJKLMNOPQRSTUVWXYZabcdefghijklmnopqrstuvwxyz0123456789-_".

Definition digit (i : Z) : ascii :=
  match String.get (Z.to_nat i) alphabet with
  | Some c => c
  | None => "="%char
  end.

(** The four sextets of a 24-bit group. *)
Definition sextet (k : Z) (n : Z) : ascii :=
  digit (Z.land (Z.shiftr n (6 * k)) 63).

Definition group3 (a b c : ascii) : Z :=
  Z.lor (Z.shiftl (Str.code a) 16) (Z.lor (Z.shiftl (Str.code b) 8) (Str.code c)).

Fixpoint urlsafe_b64encode (bs : string) : string :=
  match bs with
  | EmptyString => EmptyString
  | String a EmptyString =>
      let n := group3 a zero zero in
      String (sextet 3 n) (String (sextet 2 n) "==")
  | String a (String b EmptyString) =>
      let n := group3 a b zero in
      String (sextet 3 n) (String (sextet 2 n) (String (sextet 1 n) "="))
  | String a (String b (String c rest)) =>
      let n := group3 a b c in
      String (sextet 3 n) (String (sextet 2 n) (String (sextet 1 n)
        (String (sextet 0 n) (urlsafe_b64encode rest))))
  end.

(** The specification's encoding: base64url that never emits padding
    (RFC 7636, appendix A).  Written from the specification's words, to be
    compared with what the code computes. *)
Fixpoint base64url_nopad (bs : string) : string :=
  match bs with
  | EmptyString => EmptyString
  | String a EmptyString =>
      let n := group3 a zero zero in
      String (sextet 3 n) (String (sextet 2 n) EmptyString)
  | String a (String b EmptyString) =>
      let n := group3 a b zero in
      String (sextet 3 n) (String (sextet 2 n) (String (sextet 1 n) EmptyString))
  | String a (String b (String c rest)) =>
      let n := group3 a b c in
      String (sextet 3 n) (String (sextet 2 n) (String (sextet 1 n)
        (String (sextet 0 n) (base64url_nopad rest))))
  end.

End Base64.

(** ** [hashlib.sha256] (FIPS 180-4), on 32-bit words held in [Z] *)

Module SHA256.

Definition wrap (x : Z) : Z := x mod 2 ^ 32.
Definition add (x y : Z) : Z := wrap (x + y).
Definition rotr (n x : Z) : Z :=
  Z.lor (Z.shiftr x n) (wrap (Z.shiftl x (32 - n))).
Definition shr (n x : Z) : Z := Z.shiftr x n.
Definition not32 (x : Z) : Z := Z.lxor x (2 ^ 32 - 1).

Definition Ch (x y z : Z) : Z := Z.lxor (Z.land x y) (Z.land (not32 x) z).
Definition Maj (x y z : Z) : Z :=
  Z.lxor (Z.land x y) (Z.lxor (Z.land x z) (Z.land y z)).
Definition Sigma0 (x : Z) : Z := Z.lxor (rotr 2 x) (Z.lxor (rotr 13 x) (rotr 22 x)).
Definition Sigma1 (x : Z) : Z := Z.lxor (rotr 6 x) (Z.lxor (rotr 11 x) (rotr 25 x)).
Definition sigma0 (x : Z) : Z := Z.lxor (rotr 7 x) (Z.lxor (rotr 18 x) (shr 3 x)).
Definition sigma1 (x : Z) : Z := Z.lxor (rotr 17 x) (Z.lxor (rotr 19 x) (shr 10 x)).

(** The constants are derived as the standard defines them, from the
    first primes: the round constants are the first 32 bits of the
    fractional parts of their cube roots, the initial hash value the same
    of their square roots. *)
Definition is_prime (n : Z) : bool :=
  List.forallb (fun d => negb (n mod Z.of_nat d =? 0)) (seq 2 (Z.to_nat n - 2)).

Definition primes (count : nat) : list Z :=
  firstn count (List.filter is_prime (map Z.of_nat (seq 2 310))).

(** The integer cube root, by bisection between [lo] and [hi]. *)
Fixpoint cube_root_within (fuel : nat) (lo hi n : Z) : Z :=
  match fuel with
  | O => lo
  | S fuel' =>
      if hi - lo <=? 1 then lo
      else
        let mid := (lo + hi) / 2 in
        if mid * mid * mid <=? n
        then cube_root_within fuel' mid hi n
        else cube_root_within fuel' lo mid n
  end.

Definition fraction_bits_cbrt (p : Z) : Z :=
  wrap (cube_root_within 64 0 (2 ^ 40) (p * 2 ^ 96)).

Definition fraction_bits_sqrt (p : Z) : Z :=
  wrap (Z.sqrt (p * 2 ^ 64)).

Definition K : list Z := Eval vm_compute in map fraction_bits_cbrt (primes 64).

Record hash := Hash { ha : Z; hb : Z; hc : Z; hd : Z; he : Z; hf : Z; hg : Z; hh : Z }.

Definition H0 : hash :=
  Eval vm_compute in
    let h (i : nat) := nth i (map fraction_bits_sqrt (primes 8)) 0 in
    Hash (h 0%nat) (h 1%nat) (h 2%nat) (h 3%nat) (h 4%nat) (h 5%nat) (h 6%nat) (h 7%nat).

(** Big-endian bytes of a [w]-byte number. *)
Fixpoint be_bytes (w : nat) (x : Z) : string :=
  match w with
  | O => EmptyString
  | S w' => String (Str.chr (Z.shiftr x (8 * Z.of_nat w'))) (be_bytes w' x)
  end.

Fixpoint zeros (n : nat) : string :=
  match n with
  | O => EmptyString
  | S n' => String zero (zeros n')
  end.

Definition pad (msg : string) : string :=
  let len := Z.of_nat (String.length msg) in
  msg ++ String (Str.chr 128) (zeros (Z.to_nat ((55 - len) mod 64)))
      ++ be_bytes 8 (8 * len).

(** The sixteen big-endian words of a block, and the rest of the input. *)
Fixpoint words (n : nat) (s : string) : list Z * string :=
  match n with
  | O => ([], s)
  | S n' =>
      match s with
      | String a (String b (String c (String d r))) =>
          let w := Z.lor (Z.shiftl (Str.code a) 24) (Z.lor (Z.shiftl (Str.code b) 16)
                     (Z.lor (Z.shiftl (Str.code c) 8) (Str.code d))) in
          let '(ws, r') := words n' r in (w :: ws, r')
      | _ => ([], EmptyString)
      end
  end.

Fixpoint schedule (n : nat) (w : list Z) : list Z :=
  match n with
  | O => w
  | S n' =>
      let t := length w in
      let at_ (i : nat) := nth (t - i) w 0 in
      schedule n' (w ++ [add (add (sigma1 (at_ 2%nat)) (at_ 7%nat))
                             (add (sigma0 (at_ 15%nat)) (at_ 16%nat))])
  end.

Definition round (s : hash) (kw : Z * Z) : hash :=
  let '(k, w) := kw in
  let t1 := add (add (add (hh s) (Sigma1 (he s))) (add (Ch (he s) (hf s) (hg s)) k)) w in
  let t2 := add (Sigma0 (ha s)) (Maj (ha s) (hb s) (hc s)) in
  Hash (add t1 t2) (ha s) (hb s) (hc s) (add (hd s) t1) (he s) (hf s) (hg s).

Definition compress (h : hash) (block : list Z) : hash :=
  let s := fold_left round (combine K (schedule 48 block)) h in
  Hash (add (ha h) (ha s)) (add (hb h) (hb s)) (add (hc h) (hc s)) (add (hd h) (hd s))
       (add (he h) (he s)) (add (hf h) (hf s)) (add (hg h) (hg s)) (add (hh h) (hh s)).

Fixpoint blocks (n : nat) (h : hash) (s : string) : hash :=
  match n with
  | O => h
  | S n' =>
      let '(b, r) := words 16 s in
      blocks n' (compress h b) r
  end.

Definition digest_of (h : hash) : string :=
  be_bytes 4 (ha h) ++ be_bytes 4 (hb h) ++ be_bytes 4 (hc h) ++ be_bytes 4 (hd h) ++
  be_bytes 4 (he h) ++ be_bytes 4 (hf h) ++ be_bytes 4 (hg h) ++ be_bytes 4 (hh h).

(** [hashlib.sha256(msg).digest()]. *)
Definition digest (msg : string) : string :=
  let p := pad msg in
  digest_of (blocks (String.length p / 64) H0 p).

Fixpoint hex (s : string) : string :=
  match s with
  | EmptyString => EmptyString
  | String c r =>
      let d (i : Z) := match String.get (Z.to_nat i) "0123456789abcdef" with
                       | Some x => x | None => "?"%char end in
      String (d (Str.code c / 16)) (String (d (Str.code c mod 16)) (hex r))
  end.

End SHA256.

(** ** Python values: the operations the code applies to JSON data *)

Module Py.

Definition truthy (v : pyval) : bool :=
  match v with
  | PyNone => false
  | PyBool b => b
  | PyInt z => negb (z =? 0)
  | PyStr s => negb (String.eqb s "")
  | PyList l => match l with [] => false | _ => true end
  | PyDict d => match d with [] => false | _ => true end
  end.

Definition of_opt (x : option string) : pyval :=
  match x with
  | Some s => PyStr s
  | None => PyNone
  end.

(** [d.get(k)]: only a dict has the method. *)
Definition get (d : pyval) (k : string) : outcome pyval :=
  match d with
  | PyDict kv => Ret (default PyNone (Str.assoc k kv))
  | _ => Raise (AttributeError "get")
  end.

(** [d[k]] for a string [k]. *)
Definition getitem (d : pyval) (k : string) : outcome pyval :=
  match d with
  | PyDict kv =>
      match Str.assoc k kv with
      | Some v => Ret v
      | None => Raise (KeyError (PyStr k))
      end
  | _ => Raise (TypeError "subscript")
  end.

Fixpoint chars (s : string) : list pyval :=
  match s with
  | EmptyString => []
  | String c r => PyStr (String c EmptyString) :: chars r
  end.

(** What [for x in v] visits. *)
Definition iter (v : pyval) : outcome (list pyval) :=
  match v with
  | PyList l => Ret l
  | PyDict kv => Ret (map (fun p => PyStr (fst p)) kv)
  | PyStr s => Ret (chars s)
  | _ => Raise (TypeError "object is not iterable")
  end.

(** [v == s] for a string [s]. *)
Definition eq_str (v : pyval) (s : string) : bool :=
  match v with
  | PyStr s' => String.eqb s' s
  | _ => false
  end.

Definition decimal (z : Z) : string :=
  DecimalString.NilZero.string_of_int (Z.to_int z).

(** [str(v)], as an f-string interpolates it.  The text of a list or a
    dict needs [repr] of its items and is not modelled. *)
Definition str (v : pyval) : outcome string :=
  match v with
  | PyNone => Ret "None"
  | PyBool true => Ret "True"
  | PyBool false => Ret "False"
  | PyInt z => Ret (decimal z)
  | PyStr s => Ret s
  | PyList _ | PyDict _ => Raise (OutOfModel "str of a container")
  end.

(** The debug f-string [{v=:.50}]: [format(v, '.50')] truncates a string
    and is an error for the other values of [pyval] ([None], a boolean,
    an integer, a list, a dict). *)
Definition format_dot50 (v : pyval) : outcome unit :=
  match v with
  | PyStr _ => Ret tt
  | PyBool _ | PyInt _ => Raise (ValueError "Precision not allowed in integer format specifier")
  | _ => Raise (TypeError "unsupported format string")
  end.

(** Dictionary keys: hashable values, compared as Python compares them
    ([True == 1], [False == 0]). *)
Definition hashable (v : pyval) : bool :=
  match v with
  | PyList _ | PyDict _ => false
  | _ => true
  end.

Definition key_eqb (a b : pyval) : bool :=
  match a, b with
  | PyNone, PyNone => true
  | PyStr x, PyStr y => String.eqb x y
  | PyInt x, PyInt y => x =? y
  | PyBool x, PyBool y => Bool.eqb x y
  | PyInt x, PyBool y | PyBool y, PyInt x => x =? (if y then 1 else 0)
  | _, _ => false
  end.

(** A dict with arbitrary hashable keys, latest binding first. *)
Fixpoint lookup {V} (k : pyval) (d : list (pyval * V)) : option V :=
  match d with
  | [] => None
  | (k', v) :: r => if key_eqb k k' then Some v else lookup k r
  end.

Definition subscript {V} (d : list (pyval * V)) (k : pyval) : outcome V :=
  if hashable k then
    match lookup k d with
    | Some v => Ret v
    | None => Raise (KeyError k)
    end
  else Raise (TypeError "unhashable type").

Definition store {V} (d : list (pyval * V)) (k : pyval) (v : V)
  : outcome (list (pyval * V)) :=
  if hashable k then Ret ((k, v) :: d) else Raise (TypeError "unhashable type").

End Py.

(** ** The cache: the Redis commands the code issues through aioredis 1.x

    Time is in milliseconds.  An entry with a deadline is gone once the
    clock reaches it; [TTL] rounds the remaining time to whole seconds as
    the server does.  The server keeps times as signed 64-bit numbers of
    milliseconds and turns down an expiry that does not fit. *)

Module Redis.

Record entry := Entry { value : string; deadline : option Z }.

Record t := Make { now : Z; store : gmap string entry }.

Definition empty : t := Make 0 ∅.

Definition live (r : t) (k : string) : option entry :=
  match store r !! k with
  | Some e =>
      match deadline e with
      | Some d => if now r <? d then Some e else None
      | None => Some e
      end
  | None => None
  end.

(** [GET]: the value, or [None] for a missing key. *)
Definition get (r : t) (k : string) : option string :=
  match live r k with
  | Some e => Some (value e)
  | None => None
  end.

(** [EXISTS]: 1 or 0. *)
Definition exists_ (r : t) (k : string) : Z :=
  match live r k with
  | Some _ => 1
  | None => 0
  end.

(** [TTL]: -2 for a missing key, -1 for a key without expiry. *)
Definition ttl (r : t) (k : string) : Z :=
  match live r k with
  | None => -2
  | Some e =>
      match deadline e with
      | None => -1
      | Some d => (d - now r + 500) / 1000
      end
  end.

(** The bytes aioredis sends for an argument: it encodes [str] and [int]
    and rejects [None], a boolean, a list and a dict with [TypeError]. *)
Definition encode (v : pyval) : outcome string :=
  match v with
  | PyStr s => Ret s
  | PyInt z => Ret (Py.decimal z)
  | _ => Raise (TypeError "Argument expected to be of bytes, float, int, or str type")
  end.

Definition int64_max : Z := 2 ^ 63 - 1.

(** The server's check of [EX s] at clock [now]: [s] is a 64-bit
    integer, positive, and the deadline in milliseconds fits 64 bits. *)
Definition expire_check (now s : Z) : outcome unit :=
  if (s <? - 2 ^ 63) || (int64_max <? s)
  then Raise (ReplyError "ERR value is not an integer or out of range")
  else if (0 <? s) && (s <=? int64_max / 1000) && (now + 1000 * s <=? int64_max)
  then Ret tt
  else Raise (ReplyError "ERR invalid expire time in set").

(** [isinstance(v, int)]: a boolean is an [int] too. *)
Definition is_int (v : pyval) : bool :=
  match v with
  | PyInt _ | PyBool _ => true
  | _ => false
  end.

(** [set(key, value, expire=e)].  The client first turns down a truthy
    [e] that is no [int]; it then encodes the arguments in the order
    [SET key value EX e], where [True] has no encoding; a falsy [e]
    sends a plain [SET].  The server checks the expiry it is sent. *)
Definition set (r : t) (k : string) (v : pyval) (expire : pyval) : outcome t :=
  if Py.truthy expire && negb (is_int expire)
  then Raise (TypeError "expire argument must be int")
  else
  obind (encode v) (fun bytes =>
  if Py.truthy expire then
    match expire with
    | PyInt s =>
        obind (expire_check (now r) s) (fun _ =>
        Ret (Make (now r) (<[k := Entry bytes (Some (now r + 1000 * s))]> (store r))))
    | _ => Raise (TypeError "Argument expected to be of bytes, float, int, or str type")
    end
  else Ret (Make (now r) (<[k := Entry bytes None]> (store r)))).

Definition delete (r : t) (k : string) : t :=
  Make (now r) (base.delete k (store r)).

(** The clock moves on by [d] milliseconds. *)
Definition tick (d : Z) (r : t) : t :=
  Make (now r + Z.max 0 d) (store r).

End Redis.

(** ** The outside world and the monad of handlers *)

(** Outbound HTTP calls, as the code makes them. *)
Inductive call :=
| Get (url : string) (headers : list (string * string))
| PostJson (url : string) (body : list (string * string))
| PostForm (url : string) (data : list (string * string)).

(** What comes back: a transport failure, or a status and a body that
    parses as JSON or not. *)
Record http_response := Response { status : Z; json : outcome pyval }.

Inductive http_result :=
| Failed (e : exn)
| Answered (response : http_response).

Record pubkey := PubKey { key_material : string }.

(** What is not the repository's code: the entropy source, the identity
    provider (its answer may depend on the calls made so far), and the
    PyJWT functions the code calls. *)
Record Outside := {
  entropy : nat -> ascii;
  http : list call -> call -> http_result;
  get_unverified_header : string -> outcome pyval;
  from_jwk : pyval -> outcome pubkey;
  jwt_decode : string -> pubkey -> list string -> string -> pyval -> outcome pyval
}.

Record World := {
  redis : Redis.t;
  ctx : gmap string pyval;
  trace : list call;
  cursor : nat
}.

Definition ST (S A : Type) : Type := S -> outcome A * S.

Definition ret {S A} (a : A) : ST S A := fun s => (Ret a, s).
Definition raise {S A} (e : exn) : ST S A := fun s => (Raise e, s).
Definition bind {S A B} (m : ST S A) (k : A -> ST S B) : ST S B :=
  fun s =>
    match m s with
    | (Ret a, s') => k a s'
    | (Raise e, s') => (Raise e, s')
    end.
Definition lift_o {S A} (o : outcome A) : ST S A := fun s => (o, s).

Declare Scope st_scope.
Delimit Scope st_scope with st.
Notation "x <- m ;; k" := (bind m (fun x => k))
  (at level 100, m at next level, right associativity) : st_scope.
Notation "m ;; k" := (bind m (fun _ => k))
  (at level 100, right associativity) : st_scope.
Open Scope st_scope.

Definition M (A : Type) : Type := ST World A.

Definition assert_ {S} (b : bool) : ST S unit :=
  if b then ret tt else raise AssertionError.

Definition set_redis (r : Redis.t) (w : World) : World :=
  {| redis := r; ctx := ctx w; trace := trace w; cursor := cursor w |}.
Definition set_ctx (c : gmap string pyval) (w : World) : World :=
  {| redis := redis w; ctx := c; trace := trace w; cursor := cursor w |}.

(** The world a while later: only the cache's clock moves. *)
Definition later (d : Z) (w : World) : World :=
  set_redis (Redis.tick d (redis w)) w.

Module redis_conn.

Definition get (k : string) : M (option string) :=
  fun w => (Ret (Redis.get (redis w) k), w).

Definition exists_ (k : string) : M Z :=
  fun w => (Ret (Redis.exists_ (redis w) k), w).

Definition ttl (k : string) : M Z :=
  fun w => (Ret (Redis.ttl (redis w) k), w).

Definition set (k : string) (v expire : pyval) : M unit :=
  fun w =>
    match Redis.set (redis w) k v expire with
    | Ret r => (Ret tt, set_redis r w)
    | Raise e => (Raise e, w)
    end.

Definition delete (k : string) : M unit :=
  fun w => (Ret tt, set_redis (Redis.delete (redis w) k) w).

End redis_conn.

(** [request[k]] and [request[k] = v] on the request's own storage. *)
Definition request_getitem (k : string) : M pyval :=
  fun w =>
    match ctx w !! k with
    | Some v => (Ret v, w)
    | None => (Raise (KeyError (PyStr k)), w)
    end.

Definition request_setitem (k : string) (v : pyval) : M unit :=
  fun w => (Ret tt, set_ctx (<[k := v]> (ctx w)) w).

(** The parts of an HTTP request the code reads. *)
Record Request := {
  method : string;
  path : string;
  query : list (string * string);
  headers : list (string * string)
}.

Inductive response :=
| RespFound (location : string)
| RespNoContent
| RespJson (body : list (string * pyval))
| RespOther (status : Z) (text : string).

Record Config := {
  issuer : string;
  authorization_redirect_url : string;
  token_redirect_url : string;
  client_id : string;
  client_secret : string;
  scopes : string;
  parma_ml_group_name : string;
  default_hash_algorithm : string
}.

(** ** innogeotech/sso/avanpost.py *)

Module avanpost.
Section WithConfig.
Variable config : Config.

Definition ISSUER : string := issuer config.
Definition AUTHORIZATION_REDIRECT_URL : string := authorization_redirect_url config.
Definition TOKEN_REDIRECT_URL : string := token_redirect_url config.
Definition CLIENT_ID : string := client_id config.
Definition CLIENT_SECRET : string := client_secret config.
Definition USERINFO_URL : string := ISSUER ++ "/oauth2/userinfo".
Definition SCOPES : string := scopes config.
Definition PARMA_ML_GROUP_NAME : string := parma_ml_group_name config.
Definition DEFAULT_HASH_ALGORITHM : string := default_hash_algorithm config.

Definition AUTHORIZATION_URL : string :=
  ISSUER ++ "/" ++
  "oauth2/authorize" ++
  "?response_type=code" ++
  "&client_id={client_id}" ++
  "&scope={scopes}" ++
  "&redirect_uri={redirect_url}" ++
  "&code_challenge_method=S256" ++
  "&code_challenge={code_challenge}" ++
  "&state={state}".
Definition TOKEN_URL : string := ISSUER ++ "/oauth2/token".
Definition PUBLIC_KEY_URL : string := ISSUER ++ "/oauth2/public_keys".
Definition TOKEN_REVOCATION_URL : string := ISSUER ++ "/oauth2/token/revoke".

End WithConfig.

Definition CODE_VERIFIER_REDIS_KEY : string := "forest:sso:avanpost:code_verifier:{state}".
Definition TOKEN_REDIS_KEY : string := "forest:sso:token:{access_token}".

End avanpost.

(** ** innogeotech/sso/utils.py *)

Module utils.
Section WithOutside.
Variable config : Config.
Variable outside : Outside.

(** [os.urandom(n)]: the next [n] bytes of the entropy source. *)
Definition urandom (n : nat) : M string :=
  fun w =>
    (Ret (string_of_list_ascii (map (entropy outside) (seq (cursor w) n))),
     {| redis := redis w; ctx := ctx w; trace := trace w; cursor := (cursor w + n)%nat |}).

(** One outbound call: logged, then answered by the identity provider. *)
Definition send (c : call) : M http_response :=
  fun w =>
    let w' := {| redis := redis w; ctx := ctx w; trace := (trace w ++ [c])%list;
               cursor := cursor w |} in
    match http outside (trace w) c with
    | Failed e => (Raise e, w')
    | Answered response => (Ret response, w')
    end.

(** aiohttp's [response.raise_for_status()]. *)
Definition raise_for_status (response : http_response) : M unit :=
  if 400 <=? status response then raise (ClientResponseError (status response))
  else ret tt.

Definition get_code_verifier : M string :=
  bytes <- urandom 40 ;;
  let code_verifier := Base64.urlsafe_b64encode bytes in
  ret (Str.sub_non_alnum code_verifier).

Definition get_code_challenge (code_verifier : string) : M string :=
  let code_challenge := SHA256.digest code_verifier in
  let code_challenge := Base64.urlsafe_b64encode code_challenge in
  ret (Str.remove "=" code_challenge).

Definition set_code_verifier (code_verifier : string) (state : string) : M unit :=
  code_verifier_key <- lift_o (Str.format avanpost.CODE_VERIFIER_REDIS_KEY [("state", state)]) ;;
  redis_conn.set code_verifier_key (PyStr code_verifier) (PyInt 0) ;;
  e <- redis_conn.exists_ code_verifier_key ;;
  assert_ (negb (e =? 0)).

Definition revoke_code_verifier (state : option string) : M unit :=
  code_verifier_key <- lift_o (Str.format avanpost.CODE_VERIFIER_REDIS_KEY
                                 [("state", Str.of_opt state)]) ;;
  redis_conn.delete code_verifier_key ;;
  e <- redis_conn.exists_ code_verifier_key ;;
  assert_ (e =? 0).

(** [any(group.get('name') == NAME for group in groups)]: stops at the
    first group that matches. *)
Fixpoint any_group_named (name : string) (groups : list pyval) : outcome bool :=
  match groups with
  | [] => Ret false
  | group :: rest =>
      obind (Py.get group "name") (fun n =>
      if Py.eq_str n name then Ret true else any_group_named name rest)
  end.

Definition has_permissions (token : pyval) : outcome bool :=
  obind (Py.get token "groups") (fun groups =>
  obind (Py.iter groups) (fun groups =>
  any_group_named (avanpost.PARMA_ML_GROUP_NAME config) groups)).

Definition set_access_token (access_token : pyval) (expires_in : pyval) : M unit :=
  lift_o (Py.format_dot50 access_token) ;;
  redis_conn.set avanpost.TOKEN_REDIS_KEY access_token expires_in.

Definition set_refresh_token (access_token refresh_token : pyval) : M unit :=
  lift_o (Py.format_dot50 refresh_token) ;;
  a <- lift_o (Py.str access_token) ;;
  let access_token_key := avanpost.TOKEN_REDIS_KEY ++ ":" ++ a in
  redis_conn.set access_token_key refresh_token (PyInt 0).

(** The comprehension and the loop that index the key set by [kid]. *)
Fixpoint index_by_kid {V} (f : pyval -> outcome V) (jwks : list pyval)
    (acc : list (pyval * V)) : outcome (list (pyval * V)) :=
  match jwks with
  | [] => Ret acc
  | jwk :: rest =>
      obind (Py.getitem jwk "kid") (fun kid =>
      obind (f jwk) (fun v =>
      obind (Py.store acc kid v) (fun acc' =>
      index_by_kid f rest acc')))
  end.

Definition get_public_key (token : option string) : M pubkey :=
  response <- send (Get (avanpost.PUBLIC_KEY_URL config) []) ;;
  assert_ (status response =? 200) ;;
  body <- lift_o (json response) ;;
  keys <- lift_o (Py.getitem body "keys") ;;
  keys <- lift_o (Py.iter keys) ;;
  public_keys <- lift_o (index_by_kid (from_jwk outside) keys []) ;;
  match token with
  | None | Some EmptyString => lift_o (Py.subscript public_keys (PyStr "1"))
  | Some token =>
      header <- lift_o (get_unverified_header outside token) ;;
      kid <- lift_o (Py.getitem header "kid") ;;
      lift_o (Py.subscript public_keys kid)
  end.

(** Has no [return]: the answer of [EXISTS] is dropped and the call
    evaluates to [None]. *)
Definition is_revoked (request : Request) (token : string) : M pyval :=
  redis_conn.exists_ (avanpost.TOKEN_REDIS_KEY ++ ":" ++ token) ;;
  ret PyNone.

Definition generate_state : M string := get_code_verifier.

Definition json_or_raise_for_status (response : http_response) : M pyval :=
  match json response with
  | Raise (JSONDecodeError e) => raise (HTTPBadRequest (PyStr e))
  | Raise e => raise e
  | Ret response_dict =>
      a <- lift_o (Py.get response_dict "access_token") ;;
      if Py.truthy a then ret response_dict
      else
        e <- lift_o (Py.get response_dict "error") ;;
        match e with
        | PyNone => raise_for_status response ;; ret response_dict
        | _ => raise (HTTPBadRequest response_dict)
        end
  end.

Definition request_exchange (pkce_code : string) (code_verifier : option string) : M pyval :=
  response <- send (PostJson (avanpost.TOKEN_URL config)
    [ ("grant_type", "authorization_code");
      ("client_id", avanpost.CLIENT_ID config);
      ("redirect_uri", avanpost.AUTHORIZATION_REDIRECT_URL config);
      ("code", pkce_code);
      ("code_verifier", Str.of_opt code_verifier) ]) ;;
  json_or_raise_for_status response.

Definition request_refresh (refresh_token : pyval) : M pyval :=
  r <- lift_o (Py.str refresh_token) ;;
  response <- send (PostJson (avanpost.TOKEN_URL config)
    [ ("grant_type", "refresh_token");
      ("client_id", avanpost.CLIENT_ID config);
      ("redirect_uri", avanpost.AUTHORIZATION_REDIRECT_URL config);
      ("refresh_token", r) ]) ;;
  json_or_raise_for_status response.

Definition request_json_web_keys : M pyval :=
  response <- send (Get (avanpost.PUBLIC_KEY_URL config) []) ;;
  raise_for_status response ;;
  lift_o (json response).

Definition request_token_info (token : string) : M pyval :=
  let headers := [("Authorization", "Bearer " ++ token)] in
  response <- send (Get (avanpost.USERINFO_URL config) headers) ;;
  raise_for_status response ;;
  lift_o (json response).

Definition request_public_key (token : string) : M pubkey :=
  jwks <- request_json_web_keys ;;
  ks <- lift_o (Py.getitem jwks "keys") ;;
  ks <- lift_o (Py.iter ks) ;;
  keys <- lift_o (index_by_kid Ret ks []) ;;
  header <- lift_o (get_unverified_header outside token) ;;
  kid <- lift_o (Py.getitem header "kid") ;;
  jwk <- lift_o (Py.subscript keys kid) ;;
  lift_o (from_jwk outside jwk).

Definition decode_avanpost_jwt (token : string) : M pyval :=
  let algorithms := [avanpost.DEFAULT_HASH_ALGORITHM config] in
  info <- request_token_info token ;;
  public_key <- request_public_key token ;;
  aud <- lift_o (Py.getitem info "aud") ;;
  lift_o (jwt_decode outside token public_key algorithms (avanpost.ISSUER config) aud).

Definition has_token_expired (access_token_key : string) : M bool :=
  ttl <- redis_conn.ttl access_token_key ;;
  if ttl =? -2 then
    raise (KeyError (PyStr ("Key " ++ access_token_key ++ " does not exist")))
  else if ttl =? -1 then
    ret false
  else
    ret (ttl <=? 0).

End WithOutside.
End utils.

(** ** igt/sso/views.py *)

Module views.
Section WithOutside.
Variable config : Config.
Variable outside : Outside.

(** Issue code verifier and state for the PKCE flow.  The handler ends by
    raising the redirect. *)
Definition login (request : Request) : M response :=
  state <- utils.generate_state outside ;;
  code_verifier <- utils.get_code_verifier outside ;;
  utils.set_code_verifier code_verifier state ;;
  code_challenge <- utils.get_code_challenge code_verifier ;;
  url <- lift_o (Str.format (avanpost.AUTHORIZATION_URL config)
    [ ("scopes", avanpost.SCOPES config);
      ("redirect_url", avanpost.AUTHORIZATION_REDIRECT_URL config);
      ("code_challenge", code_challenge);
      ("client_id", avanpost.CLIENT_ID config);
      ("state", state) ]) ;;
  raise (HTTPFound url).

Definition exchange_code_for_token (pkce_code : string) (code_verifier : option string)
  : M pyval :=
  utils.request_exchange config outside pkce_code code_verifier.

(** [TOKEN_REDIS_KEY.format(access_token)] passes the token by position:
    the template's field is a keyword, so no keyword is given. *)
Definition refresh_access_token (request : Request) : M pyval :=
  payload <- request_getitem "payload" ;;
  access_token <- lift_o (Py.getitem payload "access_token") ;;
  payload <- request_getitem "payload" ;;
  refresh_token <- lift_o (Py.getitem payload "refresh_token") ;;
  access_token_key <- lift_o (Str.format avanpost.TOKEN_REDIS_KEY []) ;;
  expired <- utils.has_token_expired access_token_key ;;
  if expired then utils.request_refresh config outside refresh_token
  else ret PyNone.

(** Address to exchange code_verifier for access_token. *)
Definition sso_callback (request : Request) : M response :=
  let code := Str.assoc "code" (query request) in
  let state := Str.assoc "state" (query request) in
  code_verifier_key <- lift_o (Str.format avanpost.CODE_VERIFIER_REDIS_KEY
                                 [("state", Str.of_opt state)]) ;;
  code_verifier <- redis_conn.get code_verifier_key ;;
  if negb (Str.truthy code) then
    raise (HTTPBadRequest (PyStr "PKCE code required"))
  else
    response_dict <- exchange_code_for_token (Str.of_opt code) code_verifier ;;
    access_token <- lift_o (Py.get response_dict "access_token") ;;
    refresh_token <- lift_o (Py.get response_dict "refresh_token") ;;
    utils.revoke_code_verifier state ;;
    expires_in <- lift_o (Py.get response_dict "expires_in") ;;
    utils.set_access_token access_token expires_in ;;
    utils.set_refresh_token access_token refresh_token ;;
    a <- lift_o (Py.str access_token) ;;
    e <- redis_conn.exists_ (avanpost.TOKEN_REDIS_KEY ++ ":" ++ a) ;;
    assert_ (negb (e =? 0)) ;;
    r <- lift_o (Py.str refresh_token) ;;
    url <- lift_o (Str.format (avanpost.TOKEN_REDIRECT_URL config)
                     [("access_token", a); ("refresh_token", r)]) ;;
    ret (RespFound url).

(** Logout user by revoking the authorization token in the request.
    The [ValueError] message also quotes the issuer's JSON body; evaluating
    that body can itself raise, which is kept, its text is not. *)
Definition logout (request : Request) : M response :=
  sso_token <- request_getitem "sso_token" ;;
  s <- lift_o (Py.str sso_token) ;;
  let token_key := avanpost.TOKEN_REDIS_KEY ++ ":" ++ s in
  token <- redis_conn.get token_key ;;
  match token with
  | None => raise TokenAlreadyRevoked
  | Some token =>
      response <- utils.send outside (PostForm (avanpost.TOKEN_REVOCATION_URL config)
        [ ("client_id", avanpost.CLIENT_ID config);
          ("client_secret", avanpost.CLIENT_SECRET config);
          ("token", token) ]) ;;
      if negb (status response =? 200) then
        lift_o (json response) ;;
        raise (ValueError "Could not revoke token from issuer.")
      else
        e <- redis_conn.exists_ token_key ;;
        assert_ (negb (e =? 0)) ;;
        redis_conn.delete token_key ;;
        e <- redis_conn.exists_ token_key ;;
        assert_ (e =? 0) ;;
        ret RespNoContent
  end.

Definition refresh_tokens (request : Request) : M response :=
  refresh_token_response <- refresh_access_token request ;;
  access_token <- lift_o (Py.get refresh_token_response "access_token") ;;
  refresh_token <- lift_o (Py.get refresh_token_response "refresh_token") ;;
  expires_in <- lift_o (Py.get refresh_token_response "expires_in") ;;
  utils.set_access_token access_token expires_in ;;
  utils.set_refresh_token access_token refresh_token ;;
  ret (RespJson [("access_token", access_token); ("refresh_token", refresh_token)]).

End WithOutside.
End views.

(** ** igt/sso/middleware.py *)

(** The states of the request pipeline, as the specification names them.
    The middleware below records each state it enters in a log of its own,
    next to the world: the log is what the ordering properties speak
    about, and nothing the middleware calls can write to it. *)
Inductive phase :=
| START
| WHITELIST_CHECK
| TOKEN_EXTRACT
| TOKEN_VERIFY
| REVOCATION_CHECK
| PERMISSION_CHECK
| CONTEXT_ATTACH
| DELEGATE.

Definition MW (A : Type) : Type := ST (World * list phase) A.

Definition lift {A} (m : M A) : MW A :=
  fun s => let '(o, w) := m (fst s) in (o, (w, snd s)).

Definition enter (p : phase) : MW unit :=
  fun s => (Ret tt, (fst s, (snd s ++ [p])%list)).

Definition try_except {S A} (m : ST S A) (handler : exn -> ST S A) : ST S A :=
  fun s =>
    match m s with
    | (Raise e, s') => handler e s'
    | r => r
    end.

Module middleware.
Section WithOutside.
Variable config : Config.
Variable outside : Outside.

(** [check_request] and [invoke] come from [aiohttp_jwt/utils.py], which
    is not among the sources: [check_request] is a parameter, and
    [invoke(partial(f, x))] calls [f x] and awaits it. *)
Variable check_request : Request -> list string -> bool.

Record options := {
  signing_key : pyval;
  request_property : pyval;
  credentials_required : bool;
  whitelist : list string;
  token_getter : option (Request -> M (option string));
  is_revoked : option (Request -> string -> M pyval);
  store_token : pyval;
  auth_schema : string
}.

Definition jwt_middleware (o : options) (request_property : string)
    (request : Request) (handler : Request -> M response) : MW response :=
  enter WHITELIST_CHECK ;;
  if String.eqb (method request) "OPTIONS" then
    enter DELEGATE ;; lift (handler request)
  else if check_request request (whitelist o) then
    enter DELEGATE ;; lift (handler request)
  else
    enter TOKEN_EXTRACT ;;
    token <- match token_getter o with
             | Some f => lift (f request)
             | None => raise (TypeError "the first argument must be callable")
             end ;;
    if negb (Str.truthy token) then
      raise (HTTPUnauthorized "Missing authorization token")
    else
      let token := Str.of_opt token in
      enter TOKEN_VERIFY ;;
      decoded <- try_except (lift (utils.decode_avanpost_jwt config outside token))
        (fun exc => match exc with
                    | InvalidTokenError exc =>
                        let msg := "Invalid authorization token, " ++ exc in
                        raise (HTTPUnauthorized msg)
                    | _ => raise exc
                    end) ;;
      enter REVOCATION_CHECK ;;
      revoked <- match is_revoked o with
                 | Some f => r <- lift (f request token) ;; ret (Py.truthy r)
                 | None => ret false
                 end ;;
      if revoked then
        raise (HTTPForbidden "Token is revoked")
      else
        enter CONTEXT_ATTACH ;;
        lift (request_setitem request_property decoded) ;;
        enter PERMISSION_CHECK ;;
        allowed <- lift (lift_o (utils.has_permissions config decoded)) ;;
        if negb allowed then
          raise (HTTPForbidden "You have no rights to access the page.")
        else
          match store_token o with
          | PyStr (String c s) =>
              enter CONTEXT_ATTACH ;;
              lift (request_setitem (String c s) (PyStr token))
          | _ => ret tt
          end ;;
          enter DELEGATE ;;
          lift (handler request).

(** The constructor checks its configuration, then returns the
    middleware. *)
Definition AvanpostJWTMiddleware (o : options)
  : outcome (Request -> (Request -> M response) -> MW response) :=
  match signing_key o with
  | PyStr (String _ _) =>
      match request_property o with
      | PyStr p => Ret (jwt_middleware o p)
      | _ => Raise (TypeError "request_property should be a str")
      end
  | _ => Raise (OtherError "secret or public key should be provided for correct work")
  end.

End WithOutside.
End middleware.

(** ** A stub deployment, for the scenarios of the specification *)

Module Stub.

Definition config : Config := {|
  issuer := "https://idp.example";
  authorization_redirect_url := "https://gw.example/callback";
  token_redirect_url := "https://app.example/#at={access_token}&rt={refresh_token}";
  client_id := "gateway";
  client_secret := "s3cret";
  scopes := "openid";
  parma_ml_group_name := "parma_ml";
  default_hash_algorithm := "RS256"
|}.

(** The issuer's key set holds one key, [k1]. *)
Definition jwks : pyval :=
  PyDict [("keys", PyList [PyDict [("kid", PyStr "k1"); ("kty", PyStr "RSA")]])].

(** The stub issuer: every token request is answered with the pair
    [AT1]/[RT1] valid for 3600 seconds, every revocation succeeds, the
    key-set endpoint serves [jwks], and userinfo names the audience. *)
Definition stub_http (history : list call) (c : call) : http_result :=
  match c with
  | PostJson _ _ =>
      Answered (Response 200 (Ret (PyDict
        [ ("access_token", PyStr "AT1");
          ("refresh_token", PyStr "RT1");
          ("expires_in", PyInt 3600) ])))
  | PostForm _ _ => Answered (Response 200 (Ret (PyDict [])))
  | Get _ [] => Answered (Response 200 (Ret jwks))
  | Get _ _ => Answered (Response 200 (Ret (PyDict [("aud", PyStr "gateway")])))
  end.

(** Tokens are written [kid.claims]: ["k1.admin"] carries the group the
    gateway asks for, ["k1.guest"] carries no group of that name,
    ["k1.nogroups"] carries no [groups] claim, ["k1.expired"] is past its
    [exp], and ["k9..."] names a key the issuer does not publish. *)
Definition kid_of (token : string) : string := substring 0 2 token.
Definition claims_of (token : string) : string :=
  substring 3 (String.length token - 3) token.

Definition stub_header (token : string) : outcome pyval :=
  Ret (PyDict [("alg", PyStr "RS256"); ("kid", PyStr (kid_of token))]).

Definition stub_from_jwk (jwk : pyval) : outcome pubkey :=
  obind (Py.getitem jwk "kid") (fun kid =>
  obind (Py.str kid) (fun k => Ret (PubKey k))).

Definition stub_decode (token : string) (key : pubkey) (algorithms : list string)
    (iss : string) (aud : pyval) : outcome pyval :=
  if String.eqb (claims_of token) "expired" then
    Raise (InvalidTokenError "Signature has expired")
  else if String.eqb (claims_of token) "admin" then
    Ret (PyDict [("sub", PyStr "u1"); ("groups", PyList [PyDict [("name", PyStr "parma_ml")]])])
  else if String.eqb (claims_of token) "guest" then
    Ret (PyDict [("sub", PyStr "u2"); ("groups", PyList [PyDict [("name", PyStr "other")]])])
  else if String.eqb (claims_of token) "nogroups" then
    Ret (PyDict [("sub", PyStr "u3")])
  else Raise (InvalidTokenError "Signature verification failed").

Definition outside : Outside := {|
  entropy := fun n => Str.chr (Z.of_nat (37 * n + 11));
  http := stub_http;
  get_unverified_header := stub_header;
  from_jwk := stub_from_jwk;
  jwt_decode := stub_decode
|}.

Definition world0 : World :=
  {| redis := Redis.empty; ctx := ∅; trace := []; cursor := 0 |}.

Definition get_request (q : list (string * string)) : Request :=
  {| method := "GET"; path := "/"; query := q; headers := [] |}.

(** The extractor reads the [Authorization: Bearer] header. *)
Definition bearer (request : Request) : M (option string) :=
  ret (match Str.assoc "Authorization" (headers request) with
       | Some h => Some (substring 7 (String.length h - 7) h)
       | None => None
       end).

Definition api_request (token : string) : Request :=
  {| method := "GET"; path := "/api"; query := [];
     headers := [("Authorization", "Bearer " ++ token)] |}.

Definition no_whitelist (request : Request) (whitelist : list string) : bool := false.

Definition handler (request : Request) : M response := ret (RespOther 200 "ok").

End Stub.

(** ** Reading a URL back

    How the party that receives the redirect reads a query parameter: the
    query is the text between the first [?] and the first [#], its
    parameters are separated by [&], and a parameter's name ends at its
    first [=]. *)

Module Url.

(** [c] does not occur in [s]. *)
Definition free (c : ascii) (s : string) : bool :=
  Str.forallb (fun x => negb (Ascii.eqb x c)) s.

Fixpoint before (c : ascii) (s : string) : string :=
  match s with
  | EmptyString => EmptyString
  | String x r => if Ascii.eqb x c then EmptyString else String x (before c r)
  end.

Fixpoint after (c : ascii) (s : string) : option string :=
  match s with
  | EmptyString => None
  | String x r => if Ascii.eqb x c then Some r else after c r
  end.

Fixpoint split (c : ascii) (s : string) : list string :=
  match s with
  | EmptyString => [EmptyString]
  | String x r =>
      if Ascii.eqb x c then EmptyString :: split c r
      else match split c r with
           | h :: t => String x h :: t
           | [] => [String x EmptyString]
           end
  end.

Definition key_value (p : string) : string * string :=
  (before "=" p, default EmptyString (after "=" p)).

Definition query_param (name url : string) : option string :=
  match after "?" (before "#" url) with
  | Some q => Str.assoc name (map key_value (split "&" q))
  | None => None
  end.

(** The configured values can be put into a URL as they are: the issuer's
    address has no template braces and no query or fragment of its own,
    and the values placed in the query contain no separator. *)
Definition plain (config : Config) : bool :=
  free "{" (issuer config) && free "}" (issuer config) &&
  free "?" (issuer config) && free "#" (issuer config) &&
  forallb (fun v => free "&" v && free "#" v)
    [client_id config; scopes config; authorization_redirect_url config].

End Url.

(** The characters base64url may emit, padding apart. *)
Definition is_b64url (c : ascii) : bool :=
  Str.is_alnum c || Ascii.eqb c "-" || Ascii.eqb c "_".

(** The query string that carries the given parameters in order. *)
Fixpoint join_query (kvs : list (string * string)) : string :=
  match kvs with
  | [] => EmptyString
  | [(k, v)] => k ++ "=" ++ v
  | (k, v) :: rest => k ++ "=" ++ v ++ "&" ++ join_query rest
  end.

Definition param_ok (kv : string * string) : bool :=
  Url.free "=" (fst kv) && Url.free "&" (fst kv) && Url.free "#" (fst kv) &&
  Url.free "&" (snd kv) && Url.free "#" (snd kv).

(** The parameters [login] puts into the authorization URL. *)
Definition authorization_params (config : Config) (code_challenge state : string)
  : list (string * string) :=
  [ ("response_type", "code");
    ("client_id", client_id config);
    ("scope", scopes config);
    ("redirect_uri", authorization_redirect_url config);
    ("code_challenge_method", "S256");
    ("code_challenge", code_challenge);
    ("state", state) ].

(** The text [get_code_verifier] makes of the forty bytes of entropy
    that start at position [n]. *)
Definition verifier_at (outside : Outside) (n : nat) : string :=
  Str.sub_non_alnum (Base64.urlsafe_b64encode
    (string_of_list_ascii (map (entropy outside) (seq n 40)))).

Definition advance (n : nat) (w : World) : World :=
  {| redis := redis w; ctx := ctx w; trace := trace w; cursor := (cursor w + n)%nat |}.

(** The world after [set(key, value)] without expiry. *)
Definition put (k v : string) (w : World) : World :=
  set_redis (Redis.Make (Redis.now (redis w))
               (<[k := Redis.Entry v None]> (Redis.store (redis w)))) w.

(** The world after one outbound call has been logged. *)
Definition logged (c : call) (w : World) : World :=
  {| redis := redis w; ctx := ctx w; trace := (trace w ++ [c])%list; cursor := cursor w |}.

(** The world after [delete(key)]. *)
Definition without (k : string) (w : World) : World :=
  set_redis (Redis.delete (redis w) k) w.

(** The revocation call [logout] makes for a cached value [token]. *)
Definition revocation_call (config : Config) (token : string) : call :=
  PostForm (avanpost.TOKEN_REVOCATION_URL config)
    [ ("client_id", avanpost.CLIENT_ID config);
      ("client_secret", avanpost.CLIENT_SECRET config);
      ("token", token) ].


(** The scenario of the specification, run against the stub deployment:
    a login, the callback that redeems its state with code [abc123], and
    a logout of the token the issuer handed out. *)
Module Scenario.

Definition state : string := "CzBVepE6Q4zWH2ixwRNluApcrvFDleg6jN8hc8YYar0PUaP2SJrg".
Definition code_verifier : string := "0gdQmeMsdb7IEVqj7TZiNIbZK33AEmS3CVut8EKU5zmL3iByxRdg".

Definition after_login : World :=
  snd (views.login Stub.config Stub.outside (Stub.get_request []) Stub.world0).

Definition callback_request : Request :=
  Stub.get_request [("code", "abc123"); ("state", state)].

Definition after_callback : World :=
  snd (views.sso_callback Stub.config Stub.outside callback_request after_login).

Definition logout_request : Request :=
  {| method := "POST"; path := "/logout"; query := []; headers := [] |}.

(** The middleware has stored the bearer token under [sso_token]. *)
Definition before_logout : World :=
  set_ctx (<["sso_token" := PyStr "AT1"]> ∅) after_callback.

Definition after_logout : World :=
  snd (views.logout Stub.config Stub.outside logout_request before_logout).

(** A cache with a key that never expires, one that is due, and one with
    an hour to live. *)
Definition ttl_world : World :=
  {| redis := Redis.Make 0
       (<["forever" := Redis.Entry "v" None]>
        (<["due" := Redis.Entry "v" (Some 400)]>
         (<["hour" := Redis.Entry "v" (Some 3600000)]> ∅)));
     ctx := ∅; trace := []; cursor := 0 |}.

End Scenario.

(** What [logout] does once the token has been found in the cache. *)
Definition logout_found (config : Config) (outside : Outside)
    (token_key token : string) (w : World) : outcome response * World :=
  match http outside (trace w) (revocation_call config token) with
  | Failed e => (Raise e, logged (revocation_call config token) w)
  | Answered r =>
      if status r =? 200
      then (Ret RespNoContent, without token_key (logged (revocation_call config token) w))
      else match json r with
           | Ret _ => (Raise (ValueError "Could not revoke token from issuer."),
                       logged (revocation_call config token) w)
           | Raise e => (Raise e, logged (revocation_call config token) w)
           end
  end.


(** What [json_or_raise_for_status] makes of a response; it does not
    touch the world. *)
Definition checked_json (response : http_response) : outcome pyval :=
  match json response with
  | Raise (JSONDecodeError e) => Raise (HTTPBadRequest (PyStr e))
  | Raise e => Raise e
  | Ret d =>
      obind (Py.get d "access_token") (fun a =>
      if Py.truthy a then Ret d
      else obind (Py.get d "error") (fun e =>
           match e with
           | PyNone =>
               if 400 <=? status response
               then Raise (ClientResponseError (status response))
               else Ret d
           | _ => Raise (HTTPBadRequest d)
           end))
  end.


(** A computation that keeps a property of the world, however it ends. *)
Definition preserves {A} (P : World -> Prop) (m : M A) : Prop :=
  forall w, P w -> P (snd (m w)).

(** The key [k] is not in the cache. *)
Definition absent (k : string) (w : World) : Prop := Redis.get (redis w) k = None.

(** The log of outbound calls is [t]. *)
Definition traced (t : list call) (w : World) : Prop := trace w = t.

(** A computation that logs exactly the calls [l], however it ends. *)
Definition emits {A} (l : list call) (m : M A) : Prop :=
  forall w, trace (snd (m w)) = (trace w ++ l)%list.

(** The fetch of the issuer's key set. *)
Definition jwks_fetch (config : Config) : call :=
  Get (avanpost.PUBLIC_KEY_URL config) [].

(** The groups of a permission check are dicts as far as the check reads
    them: up to and including the first one with the wanted name. *)
Fixpoint dicts_up_to_match (name : string) (groups : list pyval) : bool :=
  match groups with
  | [] => true
  | PyDict kv :: rest =>
      Py.eq_str (default PyNone (Str.assoc "name" kv)) name
      || dicts_up_to_match name rest
  | _ :: _ => false
  end.

Definition is_dict (v : pyval) : bool :=
  match v with
  | PyDict _ => true
  | _ => false
  end.

(** The orders in which [jwt_middleware] can go through the states of
    the pipeline, read off its code: a request that is let through
    unauthenticated, one that stops at a state, and one that reaches the
    handler, with or without the raw token being stored. *)
Definition pipeline_runs : list (list phase) :=
  [ [WHITELIST_CHECK; DELEGATE];
    [WHITELIST_CHECK; TOKEN_EXTRACT];
    [WHITELIST_CHECK; TOKEN_EXTRACT; TOKEN_VERIFY];
    [WHITELIST_CHECK; TOKEN_EXTRACT; TOKEN_VERIFY; REVOCATION_CHECK];
    [WHITELIST_CHECK; TOKEN_EXTRACT; TOKEN_VERIFY; REVOCATION_CHECK;
     CONTEXT_ATTACH; PERMISSION_CHECK];
    [WHITELIST_CHECK; TOKEN_EXTRACT; TOKEN_VERIFY; REVOCATION_CHECK;
     CONTEXT_ATTACH; PERMISSION_CHECK; DELEGATE];
    [WHITELIST_CHECK; TOKEN_EXTRACT; TOKEN_VERIFY; REVOCATION_CHECK;
     CONTEXT_ATTACH; PERMISSION_CHECK; CONTEXT_ATTACH; DELEGATE] ].

(** The order the specification gives. *)
Definition specified_order : list phase :=
  [ START; WHITELIST_CHECK; TOKEN_EXTRACT; TOKEN_VERIFY; REVOCATION_CHECK;
    PERMISSION_CHECK; CONTEXT_ATTACH; DELEGATE ].

#[global] Instance phase_eq_dec : EqDecision phase.
Proof. solve_decision. Defined.

(** [l] visits states of [order] in that order, skipping some. *)
Fixpoint in_order (l order : list phase) : bool :=
  match l, order with
  | [], _ => true
  | _ :: _, [] => false
  | p :: l', q :: order' =>
      if bool_decide (p = q) then in_order l' order' else in_order l order'
  end.

Module StubMiddleware.

Definition options : middleware.options := {|
  middleware.signing_key := PyStr "key";
  middleware.request_property := PyStr "payload";
  middleware.credentials_required := false;
  middleware.whitelist := [];
  middleware.token_getter := Some Stub.bearer;
  middleware.is_revoked := Some utils.is_revoked;
  middleware.store_token := PyStr "sso_token";
  middleware.auth_schema := "Bearer"
|}.

(** One request carrying [token], through the middleware and on to the
    stub handler. *)
Definition run (token : string) : outcome response * (World * list phase) :=
  middleware.jwt_middleware Stub.config Stub.outside Stub.no_whitelist options "payload"
    (Stub.api_request token) Stub.handler (Stub.world0, [START]).

End StubMiddleware.

(** The request is neither a preflight nor whitelisted, the extractor
    finds the token [tok], the token verifies with claims [decoded], and
    the revocation check lets it pass, leaving the world [w3]. *)
Definition reaches_attach (config : Config) (outside : Outside)
    (check_request : Request -> list string -> bool) (o : middleware.options)
    (request : Request) (w : World) (tok : string) (decoded : pyval) (w3 : World) : Prop :=
  String.eqb (method request) "OPTIONS" = false /\
  check_request request (middleware.whitelist o) = false /\
  tok <> EmptyString /\
  exists getter w1 w2,
    middleware.token_getter o = Some getter /\
    getter request w = (Ret (Some tok), w1) /\
    utils.decode_avanpost_jwt config outside tok w1 = (Ret decoded, w2) /\
    match middleware.is_revoked o with
    | None => w3 = w2
    | Some f => exists r, f request tok w2 = (Ret r, w3) /\ Py.truthy r = false
    end.


(** The options with another revocation predicate. *)
Definition with_is_revoked (f : option (Request -> string -> M pyval))
    (o : middleware.options) : middleware.options :=
  {| middleware.signing_key := middleware.signing_key o;
     middleware.request_property := middleware.request_property o;
     middleware.credentials_required := middleware.credentials_required o;
     middleware.whitelist := middleware.whitelist o;
     middleware.token_getter := middleware.token_getter o;
     middleware.is_revoked := f;
     middleware.store_token := middleware.store_token o;
     middleware.auth_schema := middleware.auth_schema o |}.

(** The userinfo call that opens a verification of [token]. *)
Definition userinfo_call (config : Config) (token : string) : call :=
  Get (avanpost.USERINFO_URL config) [("Authorization", "Bearer " ++ token)].

(** An issuer that turns every call down with 401. *)
Definition rejecting_outside : Outside := {|
  entropy := entropy Stub.outside;
  http := fun _ _ => Answered (Response 401 (Ret (PyDict [("error", PyStr "invalid_token")])));
  get_unverified_header := Stub.stub_header;
  from_jwk := Stub.stub_from_jwk;
  jwt_decode := Stub.stub_decode
|}.

(** * Properties *)

(** ** The embedding against known answers *)

(** Test vectors: FIPS 180-4 "abc", and the S256 example of RFC 7636. *)
Example sha256_abc :
  SHA256.hex (SHA256.digest "abc") =
  "ba7816bf8f01cfea414140de5dae2223b00361a396177a9cb410ff61f20015ad".
Proof. vm_compute. reflexivity. Qed.

Example sha256_two_blocks :
  SHA256.hex (SHA256.digest
    "abcdbcdecdefdefgefghfghighijhijkijkljklmklmnlmnomnopnopq") =
  "248d6a61d20638b8e5c026930c3e6039a33ce45964ff2167f6ecedd419db06c1".
Proof. vm_compute. reflexivity. Qed.

Example b64_examples :
  Base64.urlsafe_b64encode "f" = "Zg==" /\
  Base64.urlsafe_b64encode "fo" = "Zm8=" /\
  Base64.urlsafe_b64encode "foobar" = "Zm9vYmFy" /\
  Base64.urlsafe_b64encode (String (Str.chr 251) (String (Str.chr 255) "")) = "-_8=".
Proof. vm_compute. repeat split. Qed.

Example format_examples :
  Str.format "forest:sso:avanpost:code_verifier:{state}" [("state", "abc")]
    = Ret "forest:sso:avanpost:code_verifier:abc" /\
  Str.format "forest:sso:token:{access_token}" []
    = Raise (KeyError (PyStr "access_token")) /\
  Str.format "a{{b}}c" [] = Ret "a{b}c" /\
  Str.format "a}b" [] = Raise (ValueError "Single '}' encountered in format string").
Proof. vm_compute. repeat split. Qed.

Example query_param_example :
  Url.query_param "b" "https://h/p?a=1&b=x=y&c#b=2" = Some "x=y".
Proof. reflexivity. Qed.

(** ** The monad *)

Lemma bind_ret {S A B} (m : ST S A) (k : A -> ST S B) s a s' :
  m s = (Ret a, s') -> bind m k s = k a s'.
Proof. intros H. unfold bind. now rewrite H. Qed.

Lemma bind_raise {S A B} (m : ST S A) (k : A -> ST S B) s e s' :
  m s = (Raise e, s') -> bind m k s = (Raise e, s').
Proof. intros H. unfold bind. now rewrite H. Qed.

Lemma obind_assoc {A B C} (o : outcome A) (f : A -> outcome B) (g : B -> outcome C) :
  obind (obind o f) g = obind o (fun a => obind (f a) g).
Proof. now destruct o. Qed.

(** ** Strings, base64 and the URL reader *)

Lemma forallb_filter p s : Str.forallb p (Str.filter p s) = true.
Proof.
  induction s as [|c s IH]; simpl; [reflexivity|].
  destruct (p c) eqn:E; simpl; [rewrite E|]; assumption.
Qed.

Lemma forallb_impl (p q : ascii -> bool) s :
  (forall c, p c = true -> q c = true) ->
  Str.forallb p s = true -> Str.forallb q s = true.
Proof.
  intros Hpq. induction s as [|c s IH]; simpl; [reflexivity|].
  intros [Hc Hs]%andb_prop. rewrite (Hpq _ Hc). simpl. auto.
Qed.

Lemma forallb_app p s t :
  Str.forallb p (s ++ t) = Str.forallb p s && Str.forallb p t.
Proof.
  induction s as [|c s IH]; simpl; [reflexivity|].
  now rewrite IH, andb_assoc.
Qed.

Lemma digit_b64url i : 0 <= i < 64 -> is_b64url (Base64.digit i) = true.
Proof.
  intros Hi.
  assert (All : forallb (fun n => is_b64url (Base64.digit (Z.of_nat n))) (seq 0 64) = true)
    by (vm_compute; reflexivity).
  rewrite forallb_forall in All.
  specialize (All (Z.to_nat i)).
  rewrite Z2Nat.id in All by lia.
  apply All, in_seq. lia.
Qed.

Lemma sextet_b64url k n : is_b64url (Base64.sextet k n) = true.
Proof.
  unfold Base64.sextet. apply digit_b64url.
  change 63 with (Z.ones 6). rewrite Z.land_ones by lia.
  apply Z.mod_pos_bound. lia.
Qed.

Lemma b64url_not c d : is_b64url d = false -> is_b64url c = true ->
  negb (Ascii.eqb c d) = true.
Proof.
  intros Hd Hc. destruct (Ascii.eqb_spec c d) as [->|]; [congruence|reflexivity].
Qed.

Lemma sextet_not k n d : is_b64url d = false ->
  negb (Ascii.eqb (Base64.sextet k n) d) = true.
Proof. intros Hd. apply (b64url_not _ _ Hd), sextet_b64url. Qed.

Lemma string_ind3 (P : string -> Prop) :
  P EmptyString ->
  (forall a, P (String a EmptyString)) ->
  (forall a b, P (String a (String b EmptyString))) ->
  (forall a b c r, P r -> P (String a (String b (String c r)))) ->
  forall s, P s.
Proof.
  intros H0 H1 H2 H3 s.
  assert (P s /\ (forall a, P (String a s)) /\ (forall a b, P (String a (String b s))))
    as [Hs _].
  { induction s as [|c s (IHs & IH1 & IH2)]; repeat split; auto. }
  exact Hs.
Qed.

(** Stripping the padding of the padded encoding gives the unpadded
    encoding of the specification. *)
Lemma remove_padding bs :
  Str.remove "=" (Base64.urlsafe_b64encode bs) = Base64.base64url_nopad bs.
Proof.
  induction bs as [|a|a b|a b c r IH] using string_ind3;
    cbn [Base64.urlsafe_b64encode Base64.base64url_nopad Str.remove Str.filter];
    rewrite ?sextet_not by reflexivity; try reflexivity.
  unfold Str.remove in IH. now rewrite IH.
Qed.

Lemma b64encode_chars bs :
  Str.forallb (fun c => is_b64url c || Ascii.eqb c "=") (Base64.urlsafe_b64encode bs) = true.
Proof.
  induction bs as [|a|a b|a b c r IH] using string_ind3;
    cbn [Base64.urlsafe_b64encode Str.forallb];
    rewrite ?sextet_b64url; try reflexivity.
  exact IH.
Qed.

Lemma nopad_chars bs : Str.forallb is_b64url (Base64.base64url_nopad bs) = true.
Proof.
  induction bs as [|a|a b|a b c r IH] using string_ind3;
    cbn [Base64.base64url_nopad Str.forallb];
    rewrite ?sextet_b64url; try reflexivity.
  exact IH.
Qed.

Lemma b64url_free d s :
  is_b64url d = false -> Str.forallb is_b64url s = true -> Url.free d s = true.
Proof.
  intros Hd. apply forallb_impl. intros c. apply b64url_not, Hd.
Qed.

Lemma alnum_b64url s :
  Str.forallb Str.is_alnum s = true -> Str.forallb is_b64url s = true.
Proof.
  apply forallb_impl. intros c Hc. unfold is_b64url. now rewrite Hc.
Qed.
Lemma append_nil_l (b : string) : EmptyString ++ b = b.
Proof. reflexivity. Qed.

Lemma append_cons x (a b : string) : String x a ++ b = String x (a ++ b).
Proof. reflexivity. Qed.

Lemma append_assoc (a b c : string) : (a ++ b) ++ c = a ++ (b ++ c).
Proof.
  induction a as [|x a IH]; rewrite ?append_nil_l, ?append_cons; [reflexivity|now rewrite IH].
Qed.

Lemma free_cons c x s :
  Url.free c (String x s) = true -> Ascii.eqb x c = false /\ Url.free c s = true.
Proof.
  unfold Url.free. simpl. intros [Hx Hs]%andb_prop. split; [|exact Hs].
  now apply negb_true_iff.
Qed.

Lemma free_app c s t : Url.free c (s ++ t) = Url.free c s && Url.free c t.
Proof. apply forallb_app. Qed.

Lemma before_free c p r :
  Url.free c p = true -> Url.before c (p ++ String c r) = p.
Proof.
  induction p as [|x p IH]; rewrite ?append_nil_l, ?append_cons; simpl.
  - now rewrite Ascii.eqb_refl.
  - intros [Hx Hp]%free_cons. rewrite Hx. now rewrite IH.
Qed.

Lemma before_none c p : Url.free c p = true -> Url.before c p = p.
Proof.
  induction p as [|x p IH]; simpl; [reflexivity|].
  intros [Hx Hp]%free_cons. rewrite Hx. now rewrite IH.
Qed.

Lemma after_free c p r :
  Url.free c p = true -> Url.after c (p ++ String c r) = Some r.
Proof.
  induction p as [|x p IH]; rewrite ?append_nil_l, ?append_cons; simpl.
  - now rewrite Ascii.eqb_refl.
  - intros [Hx Hp]%free_cons. rewrite Hx. now apply IH.
Qed.

Lemma split_none c p : Url.free c p = true -> Url.split c p = [p].
Proof.
  induction p as [|x p IH]; simpl; [reflexivity|].
  intros [Hx Hp]%free_cons. rewrite Hx. now rewrite IH.
Qed.

Lemma split_free c p r :
  Url.free c p = true -> Url.split c (p ++ String c r) = p :: Url.split c r.
Proof.
  induction p as [|x p IH]; rewrite ?append_nil_l, ?append_cons; simpl.
  - now rewrite Ascii.eqb_refl.
  - intros [Hx Hp]%free_cons. rewrite Hx. now rewrite IH.
Qed.

(** A literal prefix without braces is copied by [format]. *)
Lemma format_go_plain p s kw :
  Url.free "{" p = true -> Url.free "}" p = true ->
  Str.format_go (p ++ s) None kw =
  obind (Str.format_go s None kw) (fun r => Ret (p ++ r)).
Proof.
  induction p as [|x p IH]; rewrite ?append_nil_l, ?append_cons; simpl.
  - intros _ _. now destruct (Str.format_go s None kw).
  - intros [Hx Hp]%free_cons [Hx' Hp']%free_cons. rewrite Hx, Hx'.
    rewrite IH by assumption. now rewrite obind_assoc.
Qed.

Lemma append_nil_r (a : string) : a ++ EmptyString = a.
Proof. induction a as [|x a IH]; [reflexivity|]. rewrite append_cons. now rewrite IH. Qed.

Lemma format_code_verifier_key state :
  Str.format avanpost.CODE_VERIFIER_REDIS_KEY [("state", state)]
  = Ret ("forest:sso:avanpost:code_verifier:" ++ state).
Proof.
  enough (E : forall r, state ++ EmptyString = r ->
    Str.format avanpost.CODE_VERIFIER_REDIS_KEY [("state", state)]
    = Ret ("forest:sso:avanpost:code_verifier:" ++ r)).
  { apply E, append_nil_r. }
  intros r <-. reflexivity.
Qed.

Lemma format_authorization_url config cc st :
  Url.free "{" (issuer config) = true -> Url.free "}" (issuer config) = true ->
  Str.format (avanpost.AUTHORIZATION_URL config)
    [ ("scopes", avanpost.SCOPES config);
      ("redirect_url", avanpost.AUTHORIZATION_REDIRECT_URL config);
      ("code_challenge", cc);
      ("client_id", avanpost.CLIENT_ID config);
      ("state", st) ]
  = Ret (issuer config ++ "/oauth2/authorize?response_type=code&client_id="
         ++ client_id config ++ "&scope=" ++ scopes config
         ++ "&redirect_uri=" ++ authorization_redirect_url config
         ++ "&code_challenge_method=S256&code_challenge=" ++ cc
         ++ "&state=" ++ st).
Proof.
  intros H1 H2. unfold Str.format, avanpost.AUTHORIZATION_URL, avanpost.ISSUER.
  rewrite format_go_plain by assumption.
  transitivity (obind
    (Ret ("/oauth2/authorize?response_type=code&client_id="
          ++ client_id config ++ "&scope=" ++ scopes config
          ++ "&redirect_uri=" ++ authorization_redirect_url config
          ++ "&code_challenge_method=S256&code_challenge=" ++ cc
          ++ "&state=" ++ (st ++ EmptyString)))
    (fun r => Ret (issuer config ++ r))); [vm_compute; reflexivity|].
  now rewrite append_nil_r.
Qed.

#[local] Opaque SHA256.digest Base64.urlsafe_b64encode Base64.base64url_nopad.

Section Login.
Variable config : Config.
Variable outside : Outside.

Lemma get_code_verifier_run w :
  utils.get_code_verifier outside w = (Ret (verifier_at outside (cursor w)), advance 40 w).
Proof.
  unfold utils.get_code_verifier, utils.urandom, bind, ret, verifier_at, advance.
  reflexivity.
Qed.

Lemma verifier_alnum n : Str.forallb Str.is_alnum (verifier_at outside n) = true.
Proof. apply forallb_filter. Qed.

Lemma live_put k v w :
  Redis.live (redis (put k v w)) k = Some (Redis.Entry v None).
Proof.
  unfold Redis.live, put, set_redis. cbn [redis Redis.store].
  now rewrite lookup_insert_eq.
Qed.

Lemma set_code_verifier_run v s w :
  utils.set_code_verifier v s w =
  (Ret tt, put ("forest:sso:avanpost:code_verifier:" ++ s) v w).
Proof.
  unfold utils.set_code_verifier.
  erewrite bind_ret; [|unfold lift_o; now rewrite format_code_verifier_key].
  erewrite bind_ret; [|reflexivity].
  erewrite bind_ret; [|unfold redis_conn.exists_, Redis.exists_;
    change (set_redis _ w) with (put ("forest:sso:avanpost:code_verifier:" ++ s) v w);
    now rewrite live_put].
  reflexivity.
Qed.

Lemma get_code_challenge_run v w :
  utils.get_code_challenge v w =
  (Ret (Str.remove "=" (Base64.urlsafe_b64encode (SHA256.digest v))), w).
Proof. unfold utils.get_code_challenge, ret. reflexivity. Qed.

Lemma login_run request w :
  Url.free "{" (issuer config) = true -> Url.free "}" (issuer config) = true ->
  let state := verifier_at outside (cursor w) in
  let code_verifier := verifier_at outside (cursor w + 40) in
  views.login config outside request w =
  (Raise (HTTPFound
     (issuer config ++ "/oauth2/authorize?response_type=code&client_id="
      ++ client_id config ++ "&scope=" ++ scopes config
      ++ "&redirect_uri=" ++ authorization_redirect_url config
      ++ "&code_challenge_method=S256&code_challenge="
      ++ Base64.base64url_nopad (SHA256.digest code_verifier)
      ++ "&state=" ++ state)),
   put ("forest:sso:avanpost:code_verifier:" ++ state) code_verifier (advance 80 w)).
Proof.
  intros H1 H2 state code_verifier. unfold views.login, utils.generate_state.
  erewrite bind_ret by apply get_code_verifier_run.
  erewrite bind_ret by apply get_code_verifier_run.
  erewrite bind_ret by apply set_code_verifier_run.
  erewrite bind_ret by apply get_code_challenge_run.
  erewrite bind_ret.
  2:{ unfold lift_o. rewrite format_authorization_url by assumption. reflexivity. }
  rewrite remove_padding. unfold raise.
  replace (advance 40 (advance 40 w)) with (advance 80 w).
  2:{ unfold advance. simpl. f_equal. lia. }
  reflexivity.
Qed.

End Login.

(** ** Reading back the authorization URL *)

Lemma key_value_join k v :
  Url.free "=" k = true -> Url.key_value (k ++ "=" ++ v) = (k, v).
Proof.
  intros Hk. unfold Url.key_value.
  change (k ++ "=" ++ v) with (k ++ String "=" v).
  now rewrite before_free, after_free.
Qed.

Lemma param_ok_free kv :
  param_ok kv = true ->
  Url.free "=" (fst kv) = true /\ Url.free "&" (fst kv ++ "=" ++ snd kv) = true
  /\ Url.free "#" (fst kv ++ "=" ++ snd kv) = true.
Proof.
  unfold param_ok. rewrite !andb_true_iff.
  intros ((((Hke & Hka) & Hkh) & Hva) & Hvh).
  rewrite !free_app, Hka, Hkh, Hva, Hvh. repeat split; assumption || reflexivity.
Qed.

(** Splitting a query string gives back the parameters it was built
    from. *)
Lemma split_join_query kvs :
  kvs <> [] -> forallb param_ok kvs = true ->
  map Url.key_value (Url.split "&" (join_query kvs)) = kvs.
Proof.
  induction kvs as [|[k v] rest IH]; [congruence|].
  intros _ [Hkv Hrest]%andb_prop.
  destruct (param_ok_free _ Hkv) as (Hk & Hamp & _). simpl fst in *. simpl snd in *.
  destruct rest as [|kv' rest'].
  - cbn [join_query]. rewrite split_none by assumption.
    cbn [map]. now rewrite key_value_join.
  - change (join_query ((k, v) :: kv' :: rest'))
      with (k ++ "=" ++ v ++ String "&" (join_query (kv' :: rest'))).
    replace (k ++ "=" ++ v ++ String "&" (join_query (kv' :: rest')))
      with ((k ++ "=" ++ v) ++ String "&" (join_query (kv' :: rest')))
      by (now rewrite !append_assoc).
    rewrite split_free by assumption. cbn [map].
    rewrite key_value_join by assumption.
    f_equal. apply IH; [congruence|assumption].
Qed.

Lemma free_string c x s :
  Url.free c (String x s) = negb (Ascii.eqb x c) && Url.free c s.
Proof. reflexivity. Qed.

Lemma join_query_free c kvs :
  forallb (fun kv => Url.free c (fst kv) && Url.free c (snd kv)) kvs = true ->
  Ascii.eqb "=" c = false -> Ascii.eqb "&" c = false ->
  Url.free c (join_query kvs) = true.
Proof.
  intros H He Ha. induction kvs as [|[k v] rest IH]; [reflexivity|].
  apply andb_prop in H as [[Hk Hv]%andb_prop Hrest]. simpl fst in *. simpl snd in *.
  destruct rest as [|kv' rest'].
  - cbn [join_query]. change (k ++ "=" ++ v) with (k ++ String "=" v).
    now rewrite free_app, free_string, Hk, Hv, He.
  - change (join_query ((k, v) :: kv' :: rest'))
      with (k ++ String "=" (v ++ String "&" (join_query (kv' :: rest')))).
    now rewrite free_app, free_string, free_app, free_string, Hk, Hv, (IH Hrest), He, Ha.
Qed.

Lemma query_param_join base kvs name :
  Url.free "?" base = true -> Url.free "#" base = true ->
  kvs <> [] -> forallb param_ok kvs = true ->
  Url.query_param name (base ++ "?" ++ join_query kvs) = Str.assoc name kvs.
Proof.
  intros Hq Hh Hne Hok. unfold Url.query_param.
  assert (Hfree : Url.free "#" (join_query kvs) = true).
  { apply join_query_free; [|reflexivity|reflexivity].
    rewrite forallb_forall in Hok |- *. intros kv Hin.
    specialize (Hok kv Hin). unfold param_ok in Hok.
    rewrite !andb_true_iff in Hok.
    destruct Hok as ((((_ & _) & Hkh) & _) & Hvh).
    now rewrite Hkh, Hvh. }
  rewrite before_none.
  2:{ rewrite !free_app, Hh, Hfree. reflexivity. }
  change (base ++ "?" ++ join_query kvs) with (base ++ String "?" (join_query kvs)).
  rewrite after_free by assumption.
  now rewrite split_join_query.
Qed.

Lemma authorization_url_shape config cc st :
  issuer config ++ "/oauth2/authorize?response_type=code&client_id="
    ++ client_id config ++ "&scope=" ++ scopes config
    ++ "&redirect_uri=" ++ authorization_redirect_url config
    ++ "&code_challenge_method=S256&code_challenge=" ++ cc
    ++ "&state=" ++ st
  = (issuer config ++ "/oauth2/authorize") ++ "?"
    ++ join_query (authorization_params config cc st).
Proof.
  rewrite append_assoc. f_equal.
Qed.

Lemma authorization_url_param config cc st name :
  Url.plain config = true ->
  Str.forallb is_b64url cc = true -> Str.forallb is_b64url st = true ->
  Url.query_param name
    (issuer config ++ "/oauth2/authorize?response_type=code&client_id="
      ++ client_id config ++ "&scope=" ++ scopes config
      ++ "&redirect_uri=" ++ authorization_redirect_url config
      ++ "&code_challenge_method=S256&code_challenge=" ++ cc
      ++ "&state=" ++ st)
  = Str.assoc name (authorization_params config cc st).
Proof.
  unfold Url.plain. cbn [forallb]. rewrite !andb_true_iff.
  intros ((((Hlb & Hrb) & Hq) & Hh) & (Hc1 & Hc2) & (Hs1 & Hs2) & (Hr1 & Hr2) & _) Hcc Hst.
  rewrite authorization_url_shape.
  apply query_param_join.
  - rewrite free_app. rewrite Hq. reflexivity.
  - rewrite free_app. rewrite Hh. reflexivity.
  - discriminate.
  - unfold authorization_params, param_ok. cbn [forallb fst snd].
    rewrite !(b64url_free _ cc), !(b64url_free _ st) by (assumption || reflexivity).
    repeat match goal with H : Url.free _ _ = true |- _ => rewrite H end.
    reflexivity.
Qed.

(** ** The cache *)


Lemma get_of_live r k e : Redis.live r k = Some e -> Redis.get r k = Some (Redis.value e).
Proof. unfold Redis.get. now intros ->. Qed.


(** [TTL] answers -2 exactly for a key that is not there, -1 exactly for
    a key without expiry, and a number from 0 up otherwise. *)
Lemma ttl_cases r k :
  (Redis.ttl r k = -2 /\ Redis.get r k = None) \/
  (Redis.ttl r k = -1 /\ exists v, Redis.live r k = Some (Redis.Entry v None)) \/
  (0 <= Redis.ttl r k /\ exists v d, Redis.live r k = Some (Redis.Entry v (Some d))
                                   /\ Redis.now r < d).
Proof.
  unfold Redis.ttl, Redis.get.
  destruct (Redis.live r k) as [[v [d|]]|] eqn:E; cbn [Redis.deadline].
  - right; right.
    assert (Hd : Redis.now r < d).
    { unfold Redis.live in E. destruct (Redis.store r !! k) as [[v' [d'|]]|];
        cbn [Redis.deadline] in E; try discriminate.
      destruct (Z.ltb_spec (Redis.now r) d'); [|discriminate].
      injection E as _ <-. assumption. }
    split; [|now exists v, d].
    apply Z.div_pos; lia.
  - right; left. split; [reflexivity|now exists v].
  - left. split; reflexivity.
Qed.

(** ** Login *)

Section LoginWorld.
Variable config : Config.
Variable outside : Outside.


Lemma redis_later d w : redis (later d w) = Redis.tick d (redis w).
Proof. reflexivity. Qed.


End LoginWorld.

(** C8: for every state and code verifier that [login] produces, the
    [code_challenge] query parameter of the authorization URL it redirects
    to is the unpadded URL-safe base64 encoding of the SHA-256 digest of
    the code verifier (the verifier being the value stored in the cache
    under the state that the URL carries).  The deployment's configured
    values are assumed to contain no URL or template delimiters, which the
    code inserts unescaped. *)
Theorem C8_code_challenge_in_authorization_url config outside request w :
  Url.plain config = true ->
  exists state code_verifier url w',
    views.login config outside request w = (Raise (HTTPFound url), w') /\
    Redis.get (redis w') ("forest:sso:avanpost:code_verifier:" ++ state)
      = Some code_verifier /\
    Url.query_param "state" url = Some state /\
    Url.query_param "code_challenge" url
      = Some (Base64.base64url_nopad (SHA256.digest code_verifier)).
Proof.
  intros Hplain.
  assert (Hb : Url.free "{" (issuer config) = true /\ Url.free "}" (issuer config) = true).
  { unfold Url.plain in Hplain. rewrite !andb_true_iff in Hplain. tauto. }
  destruct Hb as [Hl Hr].
  exists (verifier_at outside (cursor w)), (verifier_at outside (cursor w + 40)).
  eexists. eexists. split; [apply login_run; assumption|].
  split.
  { rewrite (get_of_live _ _ _ (live_put _ _ _)). reflexivity. }
  split.
  - rewrite authorization_url_param; try assumption; [reflexivity| |].
    + apply nopad_chars.
    + apply alnum_b64url, verifier_alnum.
  - rewrite authorization_url_param; try assumption; [reflexivity| |].
    + apply nopad_chars.
    + apply alnum_b64url, verifier_alnum.
Qed.

Lemma C8_witness :
  Url.plain Stub.config = true /\
  exists state code_verifier url w',
    views.login Stub.config Stub.outside (Stub.get_request []) Stub.world0
      = (Raise (HTTPFound url), w') /\
    Redis.get (redis w') ("forest:sso:avanpost:code_verifier:" ++ state)
      = Some code_verifier /\
    Url.query_param "state" url = Some state /\
    Url.query_param "code_challenge" url
      = Some (Base64.base64url_nopad (SHA256.digest code_verifier)).
Proof.
  split; [reflexivity|].
  apply (C8_code_challenge_in_authorization_url Stub.config Stub.outside
           (Stub.get_request []) Stub.world0).
  reflexivity.
Defined.



(** ** Token expiry *)

Lemma has_token_expired_run key w :
  utils.has_token_expired key w =
  (if Redis.ttl (redis w) key =? -2 then
     Raise (KeyError (PyStr ("Key " ++ key ++ " does not exist")))
   else if Redis.ttl (redis w) key =? -1 then Ret false
   else Ret (Redis.ttl (redis w) key <=? 0), w).
Proof.
  unfold utils.has_token_expired, bind, redis_conn.ttl, raise, ret.
  destruct (Redis.ttl (redis w) key =? -2); [reflexivity|].
  destruct (Redis.ttl (redis w) key =? -1); reflexivity.
Qed.

(** C5: when the cache reports TTL -2 (the key is not there)
    [has_token_expired] raises [KeyError]; when it reports -1 (the key
    never expires) it returns [False]; for every other TTL it returns
    whether the TTL is at most 0.  The cache reports -2 only for a missing
    key and -1 only for a key stored without expiry, so the two signals are
    never taken for one another.  The world is left as it was. *)
Theorem C5_has_token_expired key w t :
  Redis.ttl (redis w) key = t ->
  (t = -2 ->
     Redis.get (redis w) key = None /\
     utils.has_token_expired key w =
       (Raise (KeyError (PyStr ("Key " ++ key ++ " does not exist"))), w)) /\
  (t = -1 ->
     (exists v, Redis.live (redis w) key = Some (Redis.Entry v None)) /\
     utils.has_token_expired key w = (Ret false, w)) /\
  (t <> -2 -> t <> -1 ->
     exists b, utils.has_token_expired key w = (Ret b, w) /\ (b = true <-> t <= 0)).
Proof.
  intros Ht. rewrite has_token_expired_run, Ht.
  destruct (ttl_cases (redis w) key) as [[T G]|[[T L]|[T L]]]; rewrite Ht in T; clear Ht.
  - split; [|split]; intros; try lia. rewrite T. split; [assumption|reflexivity].
  - split; [|split]; intros; try lia. rewrite T. split; [assumption|reflexivity].
  - split; [intros; lia|]. split; [intros; lia|]. intros N2 N1.
    destruct (Z.eqb_spec t (-2)); [lia|]. destruct (Z.eqb_spec t (-1)); [lia|].
    exists (t <=? 0). split; [reflexivity|]. apply Z.leb_le.
Qed.

Lemma C5_witness :
  utils.has_token_expired "missing" Scenario.ttl_world
    = (Raise (KeyError (PyStr "Key missing does not exist")), Scenario.ttl_world) /\
  utils.has_token_expired "forever" Scenario.ttl_world = (Ret false, Scenario.ttl_world) /\
  (exists b, utils.has_token_expired "due" Scenario.ttl_world = (Ret b, Scenario.ttl_world)
             /\ (b = true <-> 0 <= 0)) /\
  (exists b, utils.has_token_expired "hour" Scenario.ttl_world = (Ret b, Scenario.ttl_world)
             /\ (b = true <-> 3600 <= 0)).
Proof.
  split; [|split; [|split]].
  - apply (C5_has_token_expired "missing" Scenario.ttl_world (-2)); reflexivity.
  - apply (C5_has_token_expired "forever" Scenario.ttl_world (-1)); reflexivity.
  - apply (C5_has_token_expired "due" Scenario.ttl_world 0); [reflexivity|lia|lia].
  - apply (C5_has_token_expired "hour" Scenario.ttl_world 3600); [reflexivity|lia|lia].
Defined.

(** ** Revocation *)

(** C2 (what the code does): [is_revoked] has no [return]; whatever the
    cache holds it evaluates to [None], which is false as a condition.  In
    the scenario, the token's entry is in the cache after the callback and
    gone after the logout, and [is_revoked] answers [None] both times. *)
Theorem C2_is_revoked_answers_none :
  (forall request token w, utils.is_revoked request token w = (Ret PyNone, w)) /\
  Py.truthy PyNone = false /\
  Redis.get (redis Scenario.after_callback) "forest:sso:token:{access_token}:AT1"
    = Some "RT1" /\
  fst (views.logout Stub.config Stub.outside Scenario.logout_request Scenario.before_logout)
    = Ret RespNoContent /\
  Redis.get (redis Scenario.after_logout) "forest:sso:token:{access_token}:AT1" = None /\
  fst (utils.is_revoked Scenario.logout_request "AT1" Scenario.after_callback) = Ret PyNone /\
  fst (utils.is_revoked Scenario.logout_request "AT1" Scenario.after_logout) = Ret PyNone.
Proof.
  split; [reflexivity|]. repeat split; vm_compute; reflexivity.
Qed.

(** C1 (what the code does): after the scenario's callback, which the
    stub issuer answers with [AT1], [RT1] and 3600 seconds, the cache
    holds exactly two entries: [AT1] under the template text itself,
    [forest:sso:token:{access_token}], with 3600 seconds to live, and
    [RT1] under that text followed by [:AT1], without expiry.  No key
    built from [sso:token:AT1] exists; the state's verifier entry is
    gone. *)
Theorem C1_callback_cache_entries :
  let r := redis Scenario.after_callback in
  fst (views.sso_callback Stub.config Stub.outside Scenario.callback_request
         Scenario.after_login)
    = Ret (RespFound "https://app.example/#at=AT1&rt=RT1") /\
  Redis.get r "forest:sso:token:{access_token}" = Some "AT1" /\
  Redis.ttl r "forest:sso:token:{access_token}" = 3600 /\
  Redis.get r "forest:sso:token:{access_token}:AT1" = Some "RT1" /\
  Redis.ttl r "forest:sso:token:{access_token}:AT1" = -1 /\
  Redis.get r "forest:sso:token:AT1" = None /\
  Redis.get r "forest:sso:token:AT1:refresh" = None /\
  Redis.get r "sso:token:AT1" = None /\
  Redis.get r "sso:token:AT1:refresh" = None /\
  size (Redis.store r) = 2%nat /\
  Redis.get (redis Scenario.after_login)
    ("forest:sso:avanpost:code_verifier:" ++ Scenario.state) = Some Scenario.code_verifier /\
  Redis.get r ("forest:sso:avanpost:code_verifier:" ++ Scenario.state) = None.
Proof.
  cbv zeta. repeat split; vm_compute; reflexivity.
Qed.

(** ** Logout *)

Lemma live_delete r k : Redis.live (Redis.delete r k) k = None.
Proof. unfold Redis.live, Redis.delete. cbn [Redis.store]. now rewrite lookup_delete_eq. Qed.

Lemma live_tick_none r k d : Redis.live r k = None -> Redis.live (Redis.tick d r) k = None.
Proof.
  unfold Redis.live, Redis.tick. cbn [Redis.store Redis.now].
  destruct (Redis.store r !! k) as [[v [dl|]]|]; cbn [Redis.deadline]; try congruence.
  destruct (Z.ltb_spec (Redis.now r) dl); [discriminate|].
  intros _. destruct (Z.ltb_spec (Redis.now r + Z.max 0 d) dl); [lia|reflexivity].
Qed.

Lemma get_none_live r k : Redis.get r k = None <-> Redis.live r k = None.
Proof. unfold Redis.get. destruct (Redis.live r k); split; congruence. Qed.

Lemma exists_of_get r k :
  Redis.exists_ r k = match Redis.get r k with Some _ => 1 | None => 0 end.
Proof. unfold Redis.exists_, Redis.get. now destruct (Redis.live r k). Qed.

Section Logout.
Variable config : Config.
Variable outside : Outside.

Lemma send_run c w :
  utils.send outside c w =
  (match http outside (trace w) c with
   | Failed e => Raise e
   | Answered response => Ret response
   end, logged c w).
Proof. unfold utils.send, logged. now destruct (http outside (trace w) c). Qed.

Lemma logout_run request w sso_token s :
  ctx w !! "sso_token" = Some sso_token -> Py.str sso_token = Ret s ->
  views.logout config outside request w =
  match Redis.get (redis w) ("forest:sso:token:{access_token}:" ++ s) with
  | None => (Raise TokenAlreadyRevoked, w)
  | Some token => logout_found config outside ("forest:sso:token:{access_token}:" ++ s) token w
  end.
Proof.
  intros Hctx Hstr. unfold views.logout.
  erewrite bind_ret by (unfold request_getitem; rewrite Hctx; reflexivity).
  erewrite bind_ret by (unfold lift_o; rewrite Hstr; reflexivity).
  change (avanpost.TOKEN_REDIS_KEY ++ ":" ++ s) with ("forest:sso:token:{access_token}:" ++ s).
  set (token_key := "forest:sso:token:{access_token}:" ++ s).
  erewrite bind_ret by (unfold redis_conn.get; reflexivity).
  destruct (Redis.get (redis w) token_key) as [token|] eqn:G; [|reflexivity].
  unfold logout_found. fold (revocation_call config token).
  unfold bind at 1. rewrite send_run.
  destruct (http outside (trace w) (revocation_call config token)) as [e|r]; [reflexivity|].
  destruct (status r =? 200) eqn:S; cbn [negb].
  - assert (E : Redis.exists_ (redis (logged (revocation_call config token) w)) token_key = 1).
    { rewrite exists_of_get. cbn [logged redis]. now rewrite G. }
    erewrite bind_ret by (unfold redis_conn.exists_; rewrite E; reflexivity).
    erewrite bind_ret by reflexivity.
    erewrite bind_ret by reflexivity.
    assert (E' : Redis.exists_ (redis (without token_key (logged (revocation_call config token) w)))
                   token_key = 0).
    { unfold Redis.exists_, without, set_redis. cbn [redis]. now rewrite live_delete. }
    erewrite bind_ret by (unfold redis_conn.exists_; fold (without token_key (logged (revocation_call config token) w)); rewrite E'; reflexivity).
    erewrite bind_ret by reflexivity.
    reflexivity.
  - unfold bind, lift_o, raise. destruct (json r); reflexivity.
Qed.

End Logout.

(** C6: a logout of a token whose entry is not in the cache raises
    [TokenAlreadyRevoked] and leaves the world as it was, so no call to
    the issuer is made.  When the entry is there, exactly one revocation
    call is made and the outcome is the issuer's: a transport failure is
    raised as it is, a status other than 200 raises [ValueError], and a
    200 deletes the entry and answers 204.  After a logout that succeeded,
    a second logout of the same token raises [TokenAlreadyRevoked],
    whenever it comes. *)
Theorem C6_logout_of_absent_token config outside request w sso_token s :
  ctx w !! "sso_token" = Some sso_token -> Py.str sso_token = Ret s ->
  let token_key := "forest:sso:token:{access_token}:" ++ s in
  let logout := views.logout config outside request in
  (Redis.get (redis w) token_key = None ->
     logout w = (Raise TokenAlreadyRevoked, w)) /\
  (forall token, Redis.get (redis w) token_key = Some token ->
     trace (snd (logout w)) = (trace w ++ [revocation_call config token])%list /\
     match http outside (trace w) (revocation_call config token) with
     | Failed e => fst (logout w) = Raise e
     | Answered r =>
         if status r =? 200
         then fst (logout w) = Ret RespNoContent /\
              Redis.get (redis (snd (logout w))) token_key = None
         else match json r with
              | Ret _ => fst (logout w) = Raise (ValueError "Could not revoke token from issuer.")
              | Raise e => fst (logout w) = Raise e
              end
     end) /\
  (forall w', logout w = (Ret RespNoContent, w') ->
     forall d, logout (later d w') = (Raise TokenAlreadyRevoked, later d w')).
Proof.
  intros Hctx Hstr token_key logout. unfold logout.
  rewrite (logout_run config outside request w sso_token s Hctx Hstr).
  fold token_key. split; [|split].
  - intros ->. reflexivity.
  - intros token ->. unfold logout_found.
    destruct (http outside (trace w) (revocation_call config token)) as [e|r].
    + split; reflexivity.
    + destruct (status r =? 200).
      * split; [reflexivity|]. split; [reflexivity|].
        cbn [snd]. apply get_none_live. apply live_delete.
      * destruct (json r); split; reflexivity.
  - intros w' H d.
    destruct (Redis.get (redis w) token_key) as [token|] eqn:G; [|discriminate].
    unfold logout_found in H.
    destruct (http outside (trace w) (revocation_call config token)) as [e|r]; [discriminate|].
    destruct (status r =? 200).
    2:{ destruct (json r); discriminate. }
    injection H as <-.
    rewrite (logout_run config outside request _ sso_token s); [|exact Hctx|exact Hstr].
    fold token_key.
    replace (Redis.get (redis (later d (without token_key (logged (revocation_call config token) w)))) token_key)
      with (@None string); [reflexivity|].
    symmetry. apply get_none_live. rewrite redis_later. apply live_tick_none, live_delete.
Qed.

Lemma C6_witness :
  ctx Scenario.after_logout !! "sso_token" = Some (PyStr "AT1") /\
  Py.str (PyStr "AT1") = Ret "AT1" /\
  Redis.get (redis Scenario.after_logout) "forest:sso:token:{access_token}:AT1" = None /\
  views.logout Stub.config Stub.outside Scenario.logout_request Scenario.after_logout
    = (Raise TokenAlreadyRevoked, Scenario.after_logout).
Proof.
  assert (H1 : ctx Scenario.after_logout !! "sso_token" = Some (PyStr "AT1"))
    by (vm_compute; reflexivity).
  assert (H2 : Redis.get (redis Scenario.after_logout) "forest:sso:token:{access_token}:AT1" = None)
    by (vm_compute; reflexivity).
  split; [exact H1|]. split; [reflexivity|]. split; [exact H2|].
  exact (proj1 (C6_logout_of_absent_token Stub.config Stub.outside Scenario.logout_request
                  Scenario.after_logout (PyStr "AT1") "AT1" H1 eq_refl) H2).
Defined.

(** ** The callback *)

Lemma bind_inv {S A B} (m : ST S A) (k : A -> ST S B) s b s' :
  bind m k s = (Ret b, s') ->
  exists a s1, m s = (Ret a, s1) /\ k a s1 = (Ret b, s').
Proof.
  unfold bind. destruct (m s) as [[a|e] s1]; [|discriminate].
  intros H. now exists a, s1.
Qed.

Lemma preserves_ret {A} P (a : A) : preserves P (ret a).
Proof. now intros w H. Qed.

Lemma preserves_raise {A} P e : preserves P (@raise World A e).
Proof. now intros w H. Qed.

Lemma preserves_lift_o {A} P (o : outcome A) : preserves P (lift_o o).
Proof. now intros w H. Qed.

Lemma preserves_assert P b : preserves P (assert_ b).
Proof. destruct b; now intros w H. Qed.

Lemma preserves_bind {A B} P (m : M A) (f : A -> M B) :
  preserves P m -> (forall a, preserves P (f a)) -> preserves P (bind m f).
Proof.
  intros Hm Hf w H. unfold bind. specialize (Hm w H).
  destruct (m w) as [[a|e] w1]; cbn [snd] in *; [now apply Hf|assumption].
Qed.

Lemma preserves_exists P k : preserves P (redis_conn.exists_ k).
Proof. now intros w H. Qed.

Lemma preserves_get P k : preserves P (redis_conn.get k).
Proof. now intros w H. Qed.

Lemma preserves_ttl P k : preserves P (redis_conn.ttl k).
Proof. now intros w H. Qed.

Lemma live_set_other r r' k k' v e :
  k <> k' -> Redis.set r k' v e = Ret r' -> Redis.live r' k = Redis.live r k.
Proof.
  intros Hne. unfold Redis.set, obind.
  destruct (Py.truthy e && negb (Redis.is_int e)); [discriminate|].
  destruct (Redis.encode v) as [bytes|]; [|discriminate].
  destruct (Py.truthy e).
  - destruct e; try discriminate. destruct (Redis.expire_check (Redis.now r) z); [|discriminate].
    intros [= <-]. unfold Redis.live. cbn [Redis.store Redis.now].
    now rewrite lookup_insert_ne by congruence.
  - intros [= <-]. unfold Redis.live. cbn [Redis.store Redis.now].
    now rewrite lookup_insert_ne by congruence.
Qed.

Lemma absent_set k k' v e : k <> k' -> preserves (absent k) (redis_conn.set k' v e).
Proof.
  intros Hne w H. unfold redis_conn.set, absent in *.
  destruct (Redis.set (redis w) k' v e) as [r'|] eqn:E; cbn [snd]; [|assumption].
  cbn [set_redis redis]. apply get_none_live.
  rewrite (live_set_other _ _ _ _ _ _ Hne E). now apply get_none_live.
Qed.

Lemma traced_set t k v e : preserves (traced t) (redis_conn.set k v e).
Proof.
  intros w H. unfold redis_conn.set, traced in *.
  destruct (Redis.set (redis w) k v e); assumption.
Qed.

Lemma traced_delete t k : preserves (traced t) (redis_conn.delete k).
Proof. now intros w H. Qed.

Lemma verifier_key_not_token_key st x :
  "forest:sso:avanpost:code_verifier:" ++ st <> "forest:sso:token:{access_token}" ++ x.
Proof.
  intros H. apply (f_equal (String.get 11)) in H. vm_compute in H. discriminate H.
Qed.

Create HintDb keep.
#[local] Hint Resolve preserves_ret preserves_raise preserves_lift_o preserves_assert
  preserves_exists preserves_get preserves_ttl traced_set traced_delete : keep.

(** Walks through a sequence of steps, leaving the steps that the hints
    do not settle. *)
Ltac keep :=
  first [ solve [auto with keep]
        | apply preserves_bind; [keep | intros; cbv beta; keep]
        | idtac ].

Lemma absent_set_access_token st a e :
  preserves (absent ("forest:sso:avanpost:code_verifier:" ++ st)) (utils.set_access_token a e).
Proof.
  unfold utils.set_access_token.
  apply preserves_bind; [keep|intros _].
  apply absent_set, (verifier_key_not_token_key st "").
Qed.

Lemma absent_set_refresh_token st a r :
  preserves (absent ("forest:sso:avanpost:code_verifier:" ++ st)) (utils.set_refresh_token a r).
Proof.
  unfold utils.set_refresh_token.
  apply preserves_bind; [keep|intros _].
  apply preserves_bind; [keep|intros x].
  apply absent_set. apply (verifier_key_not_token_key st (":" ++ x)).
Qed.

Lemma traced_set_access_token t a e : preserves (traced t) (utils.set_access_token a e).
Proof. unfold utils.set_access_token. keep. Qed.

Lemma traced_set_refresh_token t a r : preserves (traced t) (utils.set_refresh_token a r).
Proof. unfold utils.set_refresh_token. keep. Qed.

#[local] Hint Resolve absent_set_access_token absent_set_refresh_token
  traced_set_access_token traced_set_refresh_token : keep.

Lemma json_or_raise_for_status_run response w :
  utils.json_or_raise_for_status response w = (checked_json response, w).
Proof.
  unfold utils.json_or_raise_for_status, checked_json.
  destruct (json response) as [d|e].
  - unfold bind, lift_o, obind, ret, raise.
    destruct (Py.get d "access_token") as [a|]; [|reflexivity].
    destruct (Py.truthy a); [reflexivity|].
    destruct (Py.get d "error") as [[]|]; try reflexivity.
    unfold utils.raise_for_status, raise, ret.
    destruct (400 <=? status response); reflexivity.
  - destruct e; reflexivity.
Qed.


Section Callback.
Variable config : Config.
Variable outside : Outside.



End Callback.





(** ** The key set *)

Lemma emits_send outside c : emits [c] (utils.send outside c).
Proof. intros w. now rewrite send_run. Qed.

Lemma emits_bind {A B} l (m : M A) (f : A -> M B) :
  emits l m -> (forall a t, preserves (traced t) (f a)) -> emits l (bind m f).
Proof.
  intros Hm Hf w. unfold bind. specialize (Hm w).
  destruct (m w) as [[a|e] w1]; cbn [snd] in *; [|assumption].
  now apply (Hf a (trace w ++ l)%list w1).
Qed.

Lemma traced_raise_for_status t r : preserves (traced t) (utils.raise_for_status r).
Proof. unfold utils.raise_for_status. destruct (400 <=? status r); keep. Qed.

#[local] Hint Resolve traced_raise_for_status : keep.

Lemma emits_request_json_web_keys config outside :
  emits [jwks_fetch config] (utils.request_json_web_keys config outside).
Proof.
  unfold utils.request_json_web_keys. apply emits_bind; [apply emits_send|].
  intros r t. keep.
Qed.

Lemma emits_request_public_key config outside token :
  emits [jwks_fetch config] (utils.request_public_key config outside token).
Proof.
  unfold utils.request_public_key.
  apply emits_bind; [apply emits_request_json_web_keys|].
  intros jwks t. keep.
Qed.

Lemma emits_get_public_key config outside token :
  emits [jwks_fetch config] (utils.get_public_key config outside token).
Proof.
  unfold utils.get_public_key. apply emits_bind; [apply emits_send|].
  intros r t.
  repeat (apply preserves_bind; [keep|intros]).
  destruct token as [[|c s]|]; keep.
Qed.

Lemma request_json_web_keys_run config outside w r jwks :
  http outside (trace w) (jwks_fetch config) = Answered r ->
  status r < 400 -> json r = Ret jwks ->
  utils.request_json_web_keys config outside w = (Ret jwks, logged (jwks_fetch config) w).
Proof.
  intros Hh Hs Hj. unfold utils.request_json_web_keys. fold (jwks_fetch config).
  erewrite bind_ret by (rewrite send_run, Hh; reflexivity).
  unfold utils.raise_for_status.
  destruct (Z.leb_spec 400 (status r)); [lia|].
  erewrite bind_ret by reflexivity.
  unfold lift_o. now rewrite Hj.
Qed.

Lemma emits_request_token_info config outside token :
  emits [userinfo_call config token] (utils.request_token_info config outside token).
Proof.
  unfold utils.request_token_info. fold (userinfo_call config token).
  apply emits_bind; [apply emits_send|].
  intros r t. keep.
Qed.

(** C9 (as the code has it): no key set is held between key lookups,
    and nothing is fetched a second time.  Each key lookup
    ([request_public_key], and [get_public_key] likewise) fetches the
    issuer's key set exactly once, whatever the token and however the
    lookup ends.  When the token's [kid] is not in the set just fetched,
    [request_public_key] raises [KeyError] for that [kid] at once: there
    is no second fetch and no retry of any kind.  A verification
    ([decode_avanpost_jwt]) first asks the userinfo endpoint; it makes
    the one key lookup, hence the one fetch, only when that call has
    succeeded, and when it has failed the verification ends with the
    same exception without fetching any key set. *)
Theorem C9_key_set_fetched_once config outside token w :
  trace (snd (utils.request_public_key config outside token w))
    = (trace w ++ [jwks_fetch config])%list /\
  trace (snd (utils.get_public_key config outside (Some token) w))
    = (trace w ++ [jwks_fetch config])%list /\
  (forall r jwks ks keys header kid,
     http outside (trace w) (jwks_fetch config) = Answered r ->
     status r < 400 -> json r = Ret jwks ->
     obind (Py.getitem jwks "keys") Py.iter = Ret ks ->
     utils.index_by_kid Ret ks [] = Ret keys ->
     get_unverified_header outside token = Ret header ->
     Py.getitem header "kid" = Ret kid ->
     Py.hashable kid = true -> Py.lookup kid keys = None ->
     utils.request_public_key config outside token w
       = (Raise (KeyError kid), logged (jwks_fetch config) w)) /\
  trace (snd (utils.decode_avanpost_jwt config outside token w))
    = (trace w ++ userinfo_call config token ::
         match fst (utils.request_token_info config outside token w) with
         | Ret _ => [jwks_fetch config]
         | Raise _ => []
         end)%list /\
  (forall e w1,
     utils.request_token_info config outside token w = (Raise e, w1) ->
     utils.decode_avanpost_jwt config outside token w = (Raise e, w1)).
Proof.
  split; [apply emits_request_public_key|]. split; [apply emits_get_public_key|].
  split; [|split].
  - intros r jwks ks keys header kid Hh Hs Hj Hks Hidx Hhd Hkid Hhash Hlook.
    unfold utils.request_public_key.
    erewrite bind_ret by (eapply request_json_web_keys_run; eassumption).
    unfold obind in Hks. destruct (Py.getitem jwks "keys") as [ks'|] eqn:G; [|discriminate].
    unfold bind, lift_o. rewrite Hks, Hidx, Hhd, Hkid.
    unfold Py.subscript. now rewrite Hhash, Hlook.
  - pose proof (emits_request_token_info config outside token w) as Hu.
    unfold utils.decode_avanpost_jwt. cbv zeta.
    destruct (utils.request_token_info config outside token w) as [[info|e] w1] eqn:E;
      cbn [fst snd] in *.
    + erewrite bind_ret by exact E.
      assert (Hk : emits [jwks_fetch config]
                     (public_key <- utils.request_public_key config outside token ;;
                      aud <- lift_o (Py.getitem info "aud") ;;
                      lift_o (jwt_decode outside token public_key
                                [avanpost.DEFAULT_HASH_ALGORITHM config]
                                (avanpost.ISSUER config) aud))).
      { apply emits_bind; [apply emits_request_public_key|]. intros pk t. keep. }
      rewrite (Hk w1), Hu, <- app_assoc. reflexivity.
    + erewrite bind_raise by exact E. exact Hu.
  - intros e w1 E. unfold utils.decode_avanpost_jwt. cbv zeta.
    now erewrite bind_raise by exact E.
Qed.

Lemma C9_witness :
  utils.request_public_key Stub.config Stub.outside "k9.admin" Stub.world0
    = (Raise (KeyError (PyStr "k9")), logged (jwks_fetch Stub.config) Stub.world0) /\
  utils.decode_avanpost_jwt Stub.config rejecting_outside "k1.admin" Stub.world0
    = (Raise (ClientResponseError 401),
       logged (userinfo_call Stub.config "k1.admin") Stub.world0).
Proof.
  split.
  - apply (proj1 (proj2 (proj2
             (C9_key_set_fetched_once Stub.config Stub.outside "k9.admin" Stub.world0)))
             (Response 200 (Ret Stub.jwks)) Stub.jwks
             [PyDict [("kid", PyStr "k1"); ("kty", PyStr "RSA")]]
             [(PyStr "k1", PyDict [("kid", PyStr "k1"); ("kty", PyStr "RSA")])]
             (PyDict [("alg", PyStr "RS256"); ("kid", PyStr "k9")]) (PyStr "k9"));
      solve [reflexivity | vm_compute; lia].
  - apply (proj2 (proj2 (proj2 (proj2
             (C9_key_set_fetched_once Stub.config rejecting_outside "k1.admin" Stub.world0))))).
    vm_compute. reflexivity.
Defined.

(** C9, refuted as stated: a token that names the key [k9], which the
    stub issuer does not publish, makes the verification fail with
    [KeyError] after one fetch of the key set; the log of calls shows the
    userinfo call and that single fetch, and no second one. *)
Lemma C9_counterexample :
  let run := utils.decode_avanpost_jwt Stub.config Stub.outside "k9.admin" Stub.world0 in
  fst run = Raise (KeyError (PyStr "k9")) /\
  trace (snd run) =
    [ Get "https://idp.example/oauth2/userinfo" [("Authorization", "Bearer k9.admin")];
      Get "https://idp.example/oauth2/public_keys" [] ] /\
  length (List.filter
            (fun c => match c with
                      | Get "https://idp.example/oauth2/public_keys" _ => true
                      | _ => false
                      end) (trace (snd run))) <> 2%nat.
Proof.
  cbv zeta. repeat split; vm_compute; congruence.
Qed.

(** ** The middleware *)

Section Middleware.
Variable config : Config.
Variable outside : Outside.
Variable check_request : Request -> list string -> bool.
Variable o : middleware.options.
Variable request_property : string.
Variable request : Request.
Variable handler : Request -> M response.

Let middleware_run :=
  middleware.jwt_middleware config outside check_request o request_property request handler.

Lemma lift_run {A} (m : M A) w log :
  lift m (w, log) = (fst (m w), (snd (m w), log)).
Proof. unfold lift. cbn [fst snd]. now destruct (m w). Qed.

Lemma middleware_order w log :
  exists l, In l pipeline_runs /\ snd (snd (middleware_run (w, log))) = (log ++ l)%list.
Proof.
  unfold middleware_run, middleware.jwt_middleware, pipeline_runs.
  unfold bind at 1. unfold enter at 1. cbn [fst snd].
  destruct (String.eqb (method request) "OPTIONS").
  { unfold bind, enter. cbn [fst snd]. rewrite lift_run. cbn [snd].
    eexists. split; [left; reflexivity|]. now rewrite <- app_assoc. }
  destruct (check_request request (middleware.whitelist o)).
  { unfold bind, enter. cbn [fst snd]. rewrite lift_run. cbn [snd].
    eexists. split; [left; reflexivity|]. now rewrite <- app_assoc. }
  unfold bind at 1. unfold enter at 1. cbn [fst snd].
  unfold bind at 1.
  destruct (middleware.token_getter o) as [getter|].
  2:{ unfold raise. cbn [snd]. eexists. split; [right; left; reflexivity|].
      now rewrite <- app_assoc. }
  rewrite lift_run. destruct (fst (getter request w)) as [token|e] eqn:Eg.
  2:{ cbn [snd]. eexists. split; [right; left; reflexivity|]. now rewrite <- app_assoc. }
  destruct (negb (Str.truthy token)).
  { unfold raise. cbn [snd]. eexists. split; [right; left; reflexivity|].
    now rewrite <- app_assoc. }
  unfold bind at 1. unfold enter at 1. cbn [fst snd].
  unfold bind at 1. unfold try_except. rewrite lift_run.
  destruct (fst (utils.decode_avanpost_jwt config outside (Str.of_opt token) _))
    as [decoded|e] eqn:Ed.
  2:{ eexists. split; [right; right; left; reflexivity|].
      destruct e; unfold raise; cbn [snd]; now rewrite <- !app_assoc. }
  unfold bind at 1. unfold enter at 1. cbn [fst snd].
  unfold bind at 1.
  set (w2 := snd (utils.decode_avanpost_jwt config outside (Str.of_opt token) _)).
  assert (Hrev : exists r w3,
    (match middleware.is_revoked o with
     | Some f => r <- lift (f request (Str.of_opt token)) ;; ret (Py.truthy r)
     | None => ret false
     end) (w2, (((log ++ [WHITELIST_CHECK]) ++ [TOKEN_EXTRACT]) ++ [TOKEN_VERIFY]) ++ [REVOCATION_CHECK])%list
    = (r, (w3, ((((log ++ [WHITELIST_CHECK]) ++ [TOKEN_EXTRACT]) ++ [TOKEN_VERIFY]) ++ [REVOCATION_CHECK])%list))).
  { destruct (middleware.is_revoked o) as [f|]; [|now eexists _, _].
    unfold bind. rewrite lift_run. destruct (fst (f request (Str.of_opt token) w2));
      now eexists _, _. }
  destruct Hrev as (r & w3 & ->).
  destruct r as [[|]|e].
  3:{ cbn [snd]. eexists. split; [do 3 right; left; reflexivity|]. now rewrite <- !app_assoc. }
  { unfold raise. cbn [snd]. eexists. split; [do 3 right; left; reflexivity|].
    now rewrite <- !app_assoc. }
  unfold bind at 1. unfold enter at 1. cbn [fst snd].
  unfold bind at 1. rewrite lift_run. cbn [fst snd request_setitem].
  unfold bind at 1. unfold enter at 1. cbn [fst snd].
  unfold bind at 1. rewrite lift_run. unfold lift_o at 1 2. cbn [fst snd].
  destruct (utils.has_permissions config decoded) as [[|]|e].
  3:{ cbn [snd]. eexists. split; [do 4 right; left; reflexivity|]. now rewrite <- !app_assoc. }
  2:{ unfold raise. cbn [negb snd]. eexists. split; [do 4 right; left; reflexivity|].
      now rewrite <- !app_assoc. }
  cbn [negb]. unfold bind at 1.
  assert (Hst : exists w4 tail,
    (tail = [] \/ tail = [CONTEXT_ATTACH]) /\
    forall lg,
    (match middleware.store_token o with
     | PyStr (String c s) =>
         enter CONTEXT_ATTACH ;;
         lift (request_setitem (String c s) (PyStr (Str.of_opt token)))
     | _ => ret tt
     end) (set_ctx (<[request_property := decoded]> (ctx w3)) w3, lg)
    = (Ret tt, (w4, (lg ++ tail)%list))).
  { destruct (middleware.store_token o) as [| | |[|c s]| |];
      try (eexists _, []; split; [now left|]; intros lg; unfold ret; now rewrite app_nil_r).
    eexists _, [CONTEXT_ATTACH]. split; [now right|]. intros lg.
    unfold bind, enter. cbn [fst snd]. rewrite lift_run. reflexivity. }
  destruct Hst as (w4 & tail & Htail & ->).
  unfold bind, enter. cbn [fst snd]. rewrite lift_run. cbn [snd].
  destruct Htail as [-> | ->]; eexists.
  - split; [do 5 right; left; reflexivity|]. now rewrite <- !app_assoc.
  - split; [do 6 right; left; reflexivity|]. now rewrite <- !app_assoc.
Qed.


Lemma middleware_at_permission_check w log tok decoded w3 :
  reaches_attach config outside check_request o request w tok decoded w3 ->
  utils.has_permissions config decoded <> Ret true ->
  middleware_run (w, log) =
  (match utils.has_permissions config decoded with
   | Raise e => Raise e
   | Ret _ => Raise (HTTPForbidden "You have no rights to access the page.")
   end,
   (set_ctx (<[request_property := decoded]> (ctx w3)) w3,
    (log ++ [WHITELIST_CHECK; TOKEN_EXTRACT; TOKEN_VERIFY; REVOCATION_CHECK;
             CONTEXT_ATTACH; PERMISSION_CHECK])%list)).
Proof.
  intros (Hm & Hw & Htok & getter & w1 & w2 & Hg & Hget & Hdec & Hrev) Hperm.
  unfold middleware_run, middleware.jwt_middleware.
  unfold bind at 1. unfold enter at 1. cbn [fst snd]. rewrite Hm, Hw.
  unfold bind at 1. unfold enter at 1. cbn [fst snd].
  unfold bind at 1. rewrite Hg, lift_run, Hget. cbn [fst snd].
  replace (negb (Str.truthy (Some tok))) with false by (now destruct tok).
  unfold bind at 1. unfold enter at 1. cbn [fst snd].
  unfold bind at 1. unfold try_except. rewrite lift_run. cbn [Str.of_opt].
  rewrite Hdec. cbn [fst snd].
  unfold bind at 1. unfold enter at 1. cbn [fst snd].
  unfold bind at 1.
  replace ((match middleware.is_revoked o with
            | Some f => r <- lift (f request tok) ;; ret (Py.truthy r)
            | None => ret false
            end) (w2, ((((log ++ [WHITELIST_CHECK]) ++ [TOKEN_EXTRACT]) ++ [TOKEN_VERIFY])
                       ++ [REVOCATION_CHECK])%list))
    with (@Ret bool false, (w3, ((((log ++ [WHITELIST_CHECK]) ++ [TOKEN_EXTRACT]) ++ [TOKEN_VERIFY])
                       ++ [REVOCATION_CHECK])%list)).
  2:{ destruct (middleware.is_revoked o) as [f|].
      - destruct Hrev as (r & Hf & Hr). unfold bind. rewrite lift_run, Hf. cbn [fst snd].
        unfold ret. now rewrite Hr.
      - now subst w3. }
  unfold bind at 1. unfold enter at 1. cbn [fst snd].
  unfold bind at 1. rewrite lift_run. cbn [fst snd request_setitem].
  unfold bind at 1. unfold enter at 1. cbn [fst snd].
  unfold bind at 1. rewrite lift_run. unfold lift_o at 1 2. cbn [fst snd].
  rewrite <- !app_assoc. cbn [app].
  destruct (utils.has_permissions config decoded) as [[|]|e]; [congruence|reflexivity|reflexivity].
Qed.

Lemma middleware_invalid_token w log getter tok w1 msg w2 :
  String.eqb (method request) "OPTIONS" = false ->
  check_request request (middleware.whitelist o) = false ->
  middleware.token_getter o = Some getter ->
  getter request w = (Ret (Some tok), w1) -> tok <> EmptyString ->
  utils.decode_avanpost_jwt config outside tok w1 = (Raise (InvalidTokenError msg), w2) ->
  middleware_run (w, log) =
  (Raise (HTTPUnauthorized ("Invalid authorization token, " ++ msg)),
   (w2, (log ++ [WHITELIST_CHECK; TOKEN_EXTRACT; TOKEN_VERIFY])%list)).
Proof.
  intros Hm Hw Hg Hget Htok Hdec.
  unfold middleware_run, middleware.jwt_middleware.
  unfold bind at 1. unfold enter at 1. cbn [fst snd]. rewrite Hm, Hw.
  unfold bind at 1. unfold enter at 1. cbn [fst snd].
  unfold bind at 1. rewrite Hg, lift_run, Hget. cbn [fst snd].
  replace (negb (Str.truthy (Some tok))) with false by (now destruct tok).
  unfold bind at 1. unfold enter at 1. cbn [fst snd].
  unfold bind at 1. unfold try_except. rewrite lift_run. cbn [Str.of_opt].
  rewrite Hdec. cbn [fst snd]. unfold raise.
  now rewrite <- !app_assoc.
Qed.

End Middleware.

(** C7 (as the code has it): within a request the middleware goes
    through the states in one of the orders of [pipeline_runs]: START,
    WHITELIST_CHECK, TOKEN_EXTRACT, TOKEN_VERIFY, REVOCATION_CHECK, then
    CONTEXT_ATTACH for the decoded claims, then PERMISSION_CHECK, then
    CONTEXT_ATTACH again if the raw token is to be stored, then DELEGATE;
    or straight from WHITELIST_CHECK to DELEGATE; stopping where it
    rejects.  A token whose verification raises [InvalidTokenError], as
    an expired one does, is rejected with 401 at TOKEN_VERIFY and
    PERMISSION_CHECK is not reached.  The decoded claims are attached
    before the permission check: a request rejected there has them in its
    context. *)
Theorem C7_pipeline_order config outside check_request o request_property request handler
    w log :
  let run := middleware.jwt_middleware config outside check_request o request_property
               request handler (w, log) in
  (exists l, In l pipeline_runs /\ snd (snd run) = (log ++ l)%list) /\
  (forall l, In l pipeline_runs ->
     in_order l [WHITELIST_CHECK; TOKEN_EXTRACT; TOKEN_VERIFY; REVOCATION_CHECK;
                 CONTEXT_ATTACH; PERMISSION_CHECK; CONTEXT_ATTACH; DELEGATE] = true) /\
  (forall getter tok w1 msg w2,
     String.eqb (method request) "OPTIONS" = false ->
     check_request request (middleware.whitelist o) = false ->
     middleware.token_getter o = Some getter ->
     getter request w = (Ret (Some tok), w1) -> tok <> EmptyString ->
     utils.decode_avanpost_jwt config outside tok w1 = (Raise (InvalidTokenError msg), w2) ->
     run = (Raise (HTTPUnauthorized ("Invalid authorization token, " ++ msg)),
            (w2, (log ++ [WHITELIST_CHECK; TOKEN_EXTRACT; TOKEN_VERIFY])%list))) /\
  (forall tok decoded w3,
     reaches_attach config outside check_request o request w tok decoded w3 ->
     utils.has_permissions config decoded = Ret false ->
     fst run = Raise (HTTPForbidden "You have no rights to access the page.") /\
     ctx (fst (snd run)) !! request_property = Some decoded /\
     snd (snd run) = (log ++ [WHITELIST_CHECK; TOKEN_EXTRACT; TOKEN_VERIFY;
                              REVOCATION_CHECK; CONTEXT_ATTACH; PERMISSION_CHECK])%list).
Proof.
  cbv zeta. split; [apply middleware_order|]. split; [|split].
  - intros l Hl. unfold pipeline_runs in Hl. cbn [In] in Hl.
    repeat (destruct Hl as [<-|Hl]; [reflexivity|]). destruct Hl.
  - intros. eapply middleware_invalid_token; eassumption.
  - intros tok decoded w3 Hr Hp.
    rewrite (middleware_at_permission_check config outside check_request o request_property
               request handler w log tok decoded w3 Hr) by congruence.
    rewrite Hp. cbn [fst snd set_ctx ctx]. now rewrite lookup_insert_eq.
Qed.

Lemma C7_witness :
  StubMiddleware.run "k1.expired"
  = (Raise (HTTPUnauthorized "Invalid authorization token, Signature has expired"),
     (snd (utils.decode_avanpost_jwt Stub.config Stub.outside "k1.expired" Stub.world0),
      [START; WHITELIST_CHECK; TOKEN_EXTRACT; TOKEN_VERIFY])).
Proof.
  apply (proj1 (proj2 (proj2 (C7_pipeline_order Stub.config Stub.outside Stub.no_whitelist
           StubMiddleware.options "payload" (Stub.api_request "k1.expired") Stub.handler
           Stub.world0 [START])))
         Stub.bearer "k1.expired" Stub.world0 "Signature has expired");
    solve [reflexivity | discriminate | vm_compute; reflexivity].
Defined.

(** C7, refuted as stated: a request whose token verifies but carries
    no group the gateway asks for is rejected with 403 at
    PERMISSION_CHECK, and by then its decoded claims are already in the
    request context: CONTEXT_ATTACH came before PERMISSION_CHECK, which
    the specified order does not allow. *)
Lemma C7_counterexample :
  let run := StubMiddleware.run "k1.guest" in
  fst run = Raise (HTTPForbidden "You have no rights to access the page.") /\
  snd (snd run) = [START; WHITELIST_CHECK; TOKEN_EXTRACT; TOKEN_VERIFY;
                   REVOCATION_CHECK; CONTEXT_ATTACH; PERMISSION_CHECK] /\
  in_order (snd (snd run)) specified_order = false /\
  ctx (fst (snd run)) !! "payload"
    = Some (PyDict [("sub", PyStr "u2");
                    ("groups", PyList [PyDict [("name", PyStr "other")]])]).
Proof.
  cbv zeta. repeat split; vm_compute; reflexivity.
Qed.

(** ** The permission check *)

Lemma any_group_named_total name groups :
  (exists b, utils.any_group_named name groups = Ret b) <->
  dicts_up_to_match name groups = true.
Proof.
  induction groups as [|g rest IH].
  - split; [reflexivity|now exists false].
  - destruct g as [| | | | |kv];
      cbn [utils.any_group_named dicts_up_to_match Py.get obind];
      try (split; [intros [? Hb]; discriminate Hb|discriminate]).
    destruct (Py.eq_str (default PyNone (Str.assoc "name" kv)) name); cbn [orb].
    + split; [reflexivity|now exists true].
    + exact IH.
Qed.

Lemma dicts_up_to_match_all name groups :
  forallb is_dict groups = true -> dicts_up_to_match name groups = true.
Proof.
  induction groups as [|g rest IH]; [reflexivity|].
  cbn [forallb dicts_up_to_match]. intros [Hg Hrest]%andb_prop.
  destruct g as [| | | | |kv]; try discriminate Hg. rewrite (IH Hrest). apply orb_true_r.
Qed.

Lemma has_permissions_total config token :
  (exists b, utils.has_permissions config token = Ret b) <->
  exists d l, token = PyDict d /\
    Py.iter (default PyNone (Str.assoc "groups" d)) = Ret l /\
    dicts_up_to_match (parma_ml_group_name config) l = true.
Proof.
  unfold utils.has_permissions, avanpost.PARMA_ML_GROUP_NAME. split.
  - intros [b Hb]. destruct token as [| | | | |d]; try discriminate Hb.
    cbn [Py.get obind] in Hb.
    destruct (Py.iter (default PyNone (Str.assoc "groups" d))) as [l|] eqn:E;
      [|discriminate Hb].
    cbn [obind] in Hb. exists d, l. split; [reflexivity|]. split; [exact E|].
    apply any_group_named_total. now exists b.
  - intros (d & l & -> & Hl & Hd). cbn [Py.get obind]. rewrite Hl. cbn [obind].
    now apply any_group_named_total.
Qed.

(** C10 (as the code has it): on claims without a [groups] key the
    permission check iterates over [None] and raises [TypeError]; a
    request whose token verifies with such claims and passes the
    revocation check ends in that [TypeError], not in 403.  The check
    returns normally exactly on claims that are a dict whose [groups]
    value can be iterated and whose items are dicts up to and including
    the first one named [PARMA_ML_GROUP_NAME] (all of them when none is);
    so it is total on every iterable of dicts, and a match ends the
    iteration before later items are looked at. *)
Theorem C10_permission_check_without_groups config :
  (forall d, Str.assoc "groups" d = None ->
     utils.has_permissions config (PyDict d) = Raise (TypeError "object is not iterable")) /\
  (forall outside check_request o request_property request handler w log tok d w3,
     reaches_attach config outside check_request o request w tok (PyDict d) w3 ->
     Str.assoc "groups" d = None ->
     fst (middleware.jwt_middleware config outside check_request o request_property
            request handler (w, log))
     = Raise (TypeError "object is not iterable")) /\
  (forall token,
     (exists b, utils.has_permissions config token = Ret b) <->
     exists d l, token = PyDict d /\
       Py.iter (default PyNone (Str.assoc "groups" d)) = Ret l /\
       dicts_up_to_match (parma_ml_group_name config) l = true) /\
  (forall d l,
     Py.iter (default PyNone (Str.assoc "groups" d)) = Ret l ->
     forallb is_dict l = true ->
     exists b, utils.has_permissions config (PyDict d) = Ret b).
Proof.
  assert (H1 : forall d, Str.assoc "groups" d = None ->
     utils.has_permissions config (PyDict d) = Raise (TypeError "object is not iterable")).
  { intros d Hd. unfold utils.has_permissions. cbn [Py.get obind]. now rewrite Hd. }
  split; [exact H1|]. split; [|split].
  - intros outside check_request o request_property request handler w log tok d w3 Hr Hd.
    rewrite (middleware_at_permission_check config outside check_request o request_property
               request handler w log tok (PyDict d) w3 Hr); rewrite (H1 d Hd);
      [reflexivity|discriminate].
  - apply has_permissions_total.
  - intros d l Hl Hall. apply has_permissions_total. exists d, l.
    repeat split; [assumption|]. now apply dicts_up_to_match_all.
Qed.

Lemma C10_witness :
  fst (StubMiddleware.run "k1.nogroups") = Raise (TypeError "object is not iterable").
Proof.
  apply (proj1 (proj2 (C10_permission_check_without_groups Stub.config))
           Stub.outside Stub.no_whitelist StubMiddleware.options "payload"
           (Stub.api_request "k1.nogroups") Stub.handler Stub.world0 [START]
           "k1.nogroups" [("sub", PyStr "u3")]
           (snd (utils.decode_avanpost_jwt Stub.config Stub.outside "k1.nogroups" Stub.world0)));
    [|reflexivity].
  split; [reflexivity|]. split; [reflexivity|]. split; [discriminate|].
  exists Stub.bearer, Stub.world0,
    (snd (utils.decode_avanpost_jwt Stub.config Stub.outside "k1.nogroups" Stub.world0)).
  split; [reflexivity|]. split; [reflexivity|]. split; [vm_compute; reflexivity|].
  exists PyNone. split; reflexivity.
Defined.

(** C10, refuted as stated: the permission check also returns normally
    on claims whose [groups] is not a list of dicts, when a group with
    the wanted name comes before the item that is not a dict. *)
Lemma C10_counterexample :
  ~ (forall config token,
       (exists b, utils.has_permissions config token = Ret b) ->
       exists d l, token = PyDict d /\
         Py.iter (default PyNone (Str.assoc "groups" d)) = Ret l /\
         forallb is_dict l = true).
Proof.
  intros H.
  destruct (H Stub.config
              (PyDict [("groups", PyList [PyDict [("name", PyStr "parma_ml")]; PyInt 5])]))
    as (d & l & Hd & Hl & Hall).
  - exists true. reflexivity.
  - injection Hd as <-. cbn in Hl. injection Hl as <-. discriminate Hall.
Qed.

(** ** More on the middleware *)

Lemma bind_ext {S A B} (m : ST S A) (f g : A -> ST S B) s :
  (forall a s', f a s' = g a s') -> bind m f s = bind m g s.
Proof. intros H. unfold bind. destruct (m s) as [[a|e] s']; [apply H|reflexivity]. Qed.

(** A preflight request, and a request that the whitelist lets through,
    go straight to the handler: the token extractor is not called, no
    call is made to the issuer, and the handler's result or error is the
    middleware's. *)
Theorem middleware_bypass config outside check_request o request_property request handler
    w log :
  String.eqb (method request) "OPTIONS" = true
  \/ check_request request (middleware.whitelist o) = true ->
  middleware.jwt_middleware config outside check_request o request_property request handler
    (w, log)
  = (fst (handler request w),
     (snd (handler request w), (log ++ [WHITELIST_CHECK; DELEGATE])%list)).
Proof.
  intros H. unfold middleware.jwt_middleware.
  unfold bind at 1. unfold enter at 1. cbn [fst snd].
  assert (E : forall lg,
    (enter DELEGATE ;; lift (handler request)) (w, lg)
    = (fst (handler request w), (snd (handler request w), (lg ++ [DELEGATE])%list))).
  { intros lg. unfold bind, enter. cbn [fst snd]. now rewrite lift_run. }
  destruct (String.eqb (method request) "OPTIONS").
  - rewrite E. now rewrite <- app_assoc.
  - destruct H as [H|H]; [discriminate|]. rewrite H, E. now rewrite <- app_assoc.
Qed.

Lemma middleware_bypass_witness :
  middleware.jwt_middleware Stub.config Stub.outside Stub.no_whitelist StubMiddleware.options
    "payload"
    {| method := "OPTIONS"; path := "/api"; query := []; headers := [] |}
    Stub.handler (Stub.world0, [START])
  = (Ret (RespOther 200 "ok"), (Stub.world0, [START; WHITELIST_CHECK; DELEGATE])).
Proof.
  apply (middleware_bypass Stub.config Stub.outside Stub.no_whitelist StubMiddleware.options
           "payload" {| method := "OPTIONS"; path := "/api"; query := []; headers := [] |}
           Stub.handler Stub.world0 [START]).
  left. reflexivity.
Defined.

(** A request for which the extractor finds no token, or an empty one,
    is rejected with 401 before anything is verified: the world is as the
    extractor left it. *)
Theorem middleware_missing_token config outside check_request o request_property request
    handler w log getter token w1 :
  String.eqb (method request) "OPTIONS" = false ->
  check_request request (middleware.whitelist o) = false ->
  middleware.token_getter o = Some getter ->
  getter request w = (Ret token, w1) ->
  token = None \/ token = Some EmptyString ->
  middleware.jwt_middleware config outside check_request o request_property request handler
    (w, log)
  = (Raise (HTTPUnauthorized "Missing authorization token"),
     (w1, (log ++ [WHITELIST_CHECK; TOKEN_EXTRACT])%list)).
Proof.
  intros Hm Hw Hg Hget Htok. unfold middleware.jwt_middleware.
  unfold bind at 1. unfold enter at 1. cbn [fst snd]. rewrite Hm, Hw.
  unfold bind at 1. unfold enter at 1. cbn [fst snd].
  unfold bind at 1. rewrite Hg, lift_run, Hget. cbn [fst snd].
  replace (negb (Str.truthy token)) with true by (now destruct Htok as [-> | ->]).
  unfold raise. now rewrite <- app_assoc.
Qed.

Lemma middleware_missing_token_witness :
  middleware.jwt_middleware Stub.config Stub.outside Stub.no_whitelist StubMiddleware.options
    "payload" (Stub.get_request []) Stub.handler (Stub.world0, [START])
  = (Raise (HTTPUnauthorized "Missing authorization token"),
     (Stub.world0, [START; WHITELIST_CHECK; TOKEN_EXTRACT])).
Proof.
  apply (middleware_missing_token Stub.config Stub.outside Stub.no_whitelist
           StubMiddleware.options "payload" (Stub.get_request []) Stub.handler
           Stub.world0 [START] Stub.bearer None Stub.world0);
    solve [reflexivity | now left].
Defined.

(** With [utils.is_revoked] as its revocation predicate the middleware
    does what it does with no predicate at all: same result, same world,
    same states.  No token is ever rejected as revoked by it. *)
Theorem middleware_is_revoked_has_no_effect config outside check_request o request_property
    request handler s :
  middleware.jwt_middleware config outside check_request
    (with_is_revoked (Some utils.is_revoked) o) request_property request handler s
  = middleware.jwt_middleware config outside check_request
    (with_is_revoked None o) request_property request handler s.
Proof.
  unfold middleware.jwt_middleware.
  cbn [with_is_revoked middleware.whitelist middleware.token_getter middleware.is_revoked
       middleware.store_token].
  apply bind_ext. intros [] s1.
  destruct (String.eqb (method request) "OPTIONS"); [reflexivity|].
  destruct (check_request request (middleware.whitelist o)); [reflexivity|].
  apply bind_ext. intros [] s2. apply bind_ext. intros token s3.
  destruct (negb (Str.truthy token)); [reflexivity|].
  apply bind_ext. intros [] s4. apply bind_ext. intros decoded s5.
  apply bind_ext. intros [] [w6 l6].
  unfold bind at 1 3. unfold bind at 1. rewrite lift_run.
  reflexivity.
Qed.

(** ** More on verification *)

(** When the issuer's userinfo endpoint turns the token down with a
    status from 400 up, the verification raises [ClientResponseError]
    right after that one call: the key set is not fetched, and since the
    error is not an [InvalidTokenError] the middleware does not turn it
    into a 401 but lets it through. *)
Theorem userinfo_rejection_is_not_a_401 config outside check_request o request_property
    request handler w log getter tok w1 r :
  String.eqb (method request) "OPTIONS" = false ->
  check_request request (middleware.whitelist o) = false ->
  middleware.token_getter o = Some getter ->
  getter request w = (Ret (Some tok), w1) -> tok <> EmptyString ->
  http outside (trace w1) (userinfo_call config tok) = Answered r ->
  400 <= status r ->
  utils.decode_avanpost_jwt config outside tok w1
    = (Raise (ClientResponseError (status r)), logged (userinfo_call config tok) w1) /\
  middleware.jwt_middleware config outside check_request o request_property request handler
    (w, log)
  = (Raise (ClientResponseError (status r)),
     (logged (userinfo_call config tok) w1,
      (log ++ [WHITELIST_CHECK; TOKEN_EXTRACT; TOKEN_VERIFY])%list)).
Proof.
  intros Hm Hw Hg Hget Htok Hh Hs.
  assert (D : utils.decode_avanpost_jwt config outside tok w1
    = (Raise (ClientResponseError (status r)), logged (userinfo_call config tok) w1)).
  { unfold utils.decode_avanpost_jwt, utils.request_token_info.
    fold (userinfo_call config tok).
    unfold bind at 1. unfold bind at 1. rewrite send_run, Hh.
    unfold bind at 1. unfold utils.raise_for_status.
    destruct (Z.leb_spec 400 (status r)); [reflexivity|lia]. }
  split; [exact D|].
  unfold middleware.jwt_middleware.
  unfold bind at 1. unfold enter at 1. cbn [fst snd]. rewrite Hm, Hw.
  unfold bind at 1. unfold enter at 1. cbn [fst snd].
  unfold bind at 1. rewrite Hg, lift_run, Hget. cbn [fst snd].
  replace (negb (Str.truthy (Some tok))) with false by (now destruct tok).
  unfold bind at 1. unfold enter at 1. cbn [fst snd].
  unfold bind at 1. unfold try_except. rewrite lift_run. cbn [Str.of_opt].
  rewrite D. cbn [fst snd]. unfold raise.
  now rewrite <- !app_assoc.
Qed.

Lemma userinfo_rejection_witness :
  middleware.jwt_middleware Stub.config rejecting_outside Stub.no_whitelist
    StubMiddleware.options "payload" (Stub.api_request "k1.expired") Stub.handler
    (Stub.world0, [START])
  = (Raise (ClientResponseError 401),
     (logged (userinfo_call Stub.config "k1.expired") Stub.world0,
      [START; WHITELIST_CHECK; TOKEN_EXTRACT; TOKEN_VERIFY])).
Proof.
  apply (proj2 (userinfo_rejection_is_not_a_401 Stub.config rejecting_outside
           Stub.no_whitelist StubMiddleware.options "payload" (Stub.api_request "k1.expired")
           Stub.handler Stub.world0 [START] Stub.bearer "k1.expired" Stub.world0
           (Response 401 (Ret (PyDict [("error", PyStr "invalid_token")])))
           eq_refl eq_refl eq_refl eq_refl ltac:(discriminate) eq_refl ltac:(cbn; lia))).
Defined.

(** ** More on the views *)

Lemma format_token_key_without_keyword :
  Str.format avanpost.TOKEN_REDIS_KEY [] = Raise (KeyError (PyStr "access_token")).
Proof. vm_compute. reflexivity. Qed.

(** [refresh_tokens] never gets as far as the cache or the issuer:
    [refresh_access_token] formats the key template with a positional
    argument, which leaves the template's keyword field without a value,
    so the handler raises with the world untouched; [KeyError] for
    [access_token] when the request carries both tokens. *)
Theorem refresh_tokens_always_raises config outside request w :
  (exists e, views.refresh_tokens config outside request w = (Raise e, w)) /\
  (forall payload a r,
     ctx w !! "payload" = Some payload ->
     Py.getitem payload "access_token" = Ret a ->
     Py.getitem payload "refresh_token" = Ret r ->
     views.refresh_tokens config outside request w
       = (Raise (KeyError (PyStr "access_token")), w)).
Proof.
  assert (H : forall payload a r,
     ctx w !! "payload" = Some payload ->
     Py.getitem payload "access_token" = Ret a ->
     Py.getitem payload "refresh_token" = Ret r ->
     views.refresh_tokens config outside request w
       = (Raise (KeyError (PyStr "access_token")), w)).
  { intros payload a r Hp Ha Hr.
    unfold views.refresh_tokens, views.refresh_access_token.
    unfold bind, request_getitem, lift_o.
    repeat (first [rewrite Hp | rewrite Ha | rewrite Hr
                  | rewrite format_token_key_without_keyword]; cbv beta iota).
    reflexivity. }
  split; [|exact H].
  destruct (ctx w !! "payload") as [payload|] eqn:Hp.
  - destruct (Py.getitem payload "access_token") as [a|e] eqn:Ha.
    + destruct (Py.getitem payload "refresh_token") as [r|e] eqn:Hr.
      * eexists. now apply (H payload a r).
      * exists e. unfold views.refresh_tokens, views.refresh_access_token.
        unfold bind, request_getitem, lift_o.
        repeat (first [rewrite Hp | rewrite Ha | rewrite Hr]; cbv beta iota).
        reflexivity.
    + exists e. unfold views.refresh_tokens, views.refresh_access_token.
      unfold bind, request_getitem, lift_o.
      repeat (first [rewrite Hp | rewrite Ha]; cbv beta iota). reflexivity.
  - eexists. unfold views.refresh_tokens, views.refresh_access_token.
    unfold bind, request_getitem. now rewrite Hp.
Qed.

Lemma refresh_tokens_witness :
  let w := set_ctx (<["payload" := PyDict [("access_token", PyStr "AT1");
                                            ("refresh_token", PyStr "RT1")]]> ∅)
             Scenario.after_callback in
  views.refresh_tokens Stub.config Stub.outside Scenario.logout_request w
  = (Raise (KeyError (PyStr "access_token")), w).
Proof.
  cbv zeta.
  apply (proj2 (refresh_tokens_always_raises Stub.config Stub.outside Scenario.logout_request _)
           (PyDict [("access_token", PyStr "AT1"); ("refresh_token", PyStr "RT1")])
           (PyStr "AT1") (PyStr "RT1")); reflexivity.
Defined.




(** A logout that succeeds deletes the entry it looked up and nothing
    else: every other key reads as before.  The entry that
    [set_access_token] writes, under the template text itself, is among
    those that stay. *)
Theorem logout_deletes_one_entry config outside request w sso_token s w' :
  ctx w !! "sso_token" = Some sso_token -> Py.str sso_token = Ret s ->
  views.logout config outside request w = (Ret RespNoContent, w') ->
  let token_key := "forest:sso:token:{access_token}:" ++ s in
  Redis.get (redis w') token_key = None /\
  (forall k, k <> token_key -> Redis.live (redis w') k = Redis.live (redis w) k) /\
  Redis.live (redis w') "forest:sso:token:{access_token}"
    = Redis.live (redis w) "forest:sso:token:{access_token}".
Proof.
  intros Hctx Hstr H token_key.
  rewrite (logout_run config outside request w sso_token s Hctx Hstr) in H.
  fold token_key in H.
  destruct (Redis.get (redis w) token_key) as [token|]; [|discriminate].
  unfold logout_found in H.
  destruct (http outside (trace w) (revocation_call config token)) as [e|r]; [discriminate|].
  destruct (status r =? 200).
  2:{ destruct (json r); discriminate. }
  injection H as <-.
  assert (F : forall k, k <> token_key ->
    Redis.live (redis (without token_key (logged (revocation_call config token) w))) k
    = Redis.live (redis w) k).
  { intros k Hk. unfold Redis.live, without, set_redis, Redis.delete, logged.
    cbn [redis Redis.store Redis.now]. now rewrite lookup_delete_ne by congruence. }
  split; [apply get_none_live, live_delete|]. split; [exact F|].
  apply F. unfold token_key. intros E.
  apply (f_equal (String.get 31)) in E. vm_compute in E. discriminate E.
Qed.

Lemma logout_deletes_one_entry_witness :
  Redis.get (redis Scenario.after_logout) "forest:sso:token:{access_token}:AT1" = None /\
  Redis.live (redis Scenario.after_logout) "forest:sso:token:{access_token}"
    = Redis.live (redis Scenario.before_logout) "forest:sso:token:{access_token}".
Proof.
  destruct (logout_deletes_one_entry Stub.config Stub.outside Scenario.logout_request
              Scenario.before_logout (PyStr "AT1") "AT1" Scenario.after_logout)
    as (H1 & _ & H3); [reflexivity|reflexivity|vm_compute; reflexivity|].
  split; [exact H1|exact H3].
Defined.

(** ** More on the token store *)

Lemma expire_check_ok now s :
  Redis.expire_check now s = Ret tt -> 0 < s /\ now + 1000 * s <= Redis.int64_max.
Proof.
  unfold Redis.expire_check.
  destruct ((s <? - 2 ^ 63) || (Redis.int64_max <? s)); [discriminate|].
  destruct (Z.ltb_spec 0 s); [|discriminate].
  destruct (s <=? Redis.int64_max / 1000); [|discriminate].
  destruct (Z.leb_spec (now + 1000 * s) Redis.int64_max); [|discriminate].
  intros _. split; assumption.
Qed.

(** When [set_access_token] returns for a token that is a string, it
    holds the token under the one key that is the unformatted template,
    with the issuer's [expires_in] as its time to live when that is an
    integer (which the cache has then accepted as positive) and without
    expiry when it is falsy; every other key and the log of calls are as
    before.  A token stored earlier is replaced. *)
Theorem set_access_token_writes_the_template_key s expires_in w w' :
  utils.set_access_token (PyStr s) expires_in w = (Ret tt, w') ->
  Redis.get (redis w') "forest:sso:token:{access_token}" = Some s /\
  (forall n, expires_in = PyInt n -> n <> 0 ->
     0 < n /\ Redis.ttl (redis w') "forest:sso:token:{access_token}" = n) /\
  (Py.truthy expires_in = false ->
     Redis.ttl (redis w') "forest:sso:token:{access_token}" = -1) /\
  (forall k, k <> "forest:sso:token:{access_token}" ->
     Redis.live (redis w') k = Redis.live (redis w) k) /\
  trace w' = trace w.
Proof.
  unfold utils.set_access_token. intros H.
  apply bind_inv in H as ([] & w1 & Hf & H).
  unfold lift_o in Hf. injection Hf as <-.
  unfold redis_conn.set in H.
  destruct (Redis.set (redis w) avanpost.TOKEN_REDIS_KEY (PyStr s) expires_in) as [r'|] eqn:E;
    [|discriminate].
  injection H as <-. cbn [set_redis redis trace].
  assert (O : forall k, k <> "forest:sso:token:{access_token}" ->
            Redis.live r' k = Redis.live (redis w) k).
  { intros k Hk. eapply live_set_other; [|exact E]. exact Hk. }
  unfold Redis.set in E.
  destruct (Py.truthy expires_in && negb (Redis.is_int expires_in)); [discriminate E|].
  cbn [Redis.encode obind] in E.
  destruct (Py.truthy expires_in) eqn:T.
  - destruct expires_in as [| |n| | |]; try discriminate E.
    destruct (Redis.expire_check (Redis.now (redis w)) n) as [[]|] eqn:C; [|discriminate E].
    apply expire_check_ok in C as [Hn _].
    cbn [obind] in E. injection E as <-.
    assert (L : Redis.live (Redis.Make (Redis.now (redis w))
                  (<[avanpost.TOKEN_REDIS_KEY := Redis.Entry s (Some (Redis.now (redis w) + 1000 * n))]>
                     (Redis.store (redis w)))) "forest:sso:token:{access_token}"
                = Some (Redis.Entry s (Some (Redis.now (redis w) + 1000 * n)))).
    { unfold Redis.live. cbn [Redis.store Redis.now].
      change avanpost.TOKEN_REDIS_KEY with "forest:sso:token:{access_token}".
      rewrite lookup_insert_eq. cbn [Redis.deadline].
      destruct (Z.ltb_spec (Redis.now (redis w)) (Redis.now (redis w) + 1000 * n)); [reflexivity|lia]. }
    repeat split; try assumption.
    + unfold Redis.get. now rewrite L.
    + injection H as <-. assumption.
    + injection H as <-. unfold Redis.ttl. rewrite L. cbn [Redis.deadline].
      cbn [Redis.now]. symmetry. apply (Z.div_unique _ _ n 500); lia.
    + discriminate.
  - injection E as <-.
    assert (L : Redis.live (Redis.Make (Redis.now (redis w))
                  (<[avanpost.TOKEN_REDIS_KEY := Redis.Entry s None]> (Redis.store (redis w))))
                  "forest:sso:token:{access_token}" = Some (Redis.Entry s None)).
    { unfold Redis.live. cbn [Redis.store].
      change avanpost.TOKEN_REDIS_KEY with "forest:sso:token:{access_token}".
      now rewrite lookup_insert_eq. }
    repeat split; try assumption.
    + unfold Redis.get. now rewrite L.
    + subst expires_in. cbn in T. destruct (Z.eqb_spec n 0); [contradiction|discriminate].
    + subst expires_in. cbn in T. destruct (Z.eqb_spec n 0); [contradiction|discriminate].
    + intros _. unfold Redis.ttl. now rewrite L.
Qed.

Lemma set_access_token_witness :
  Redis.get (redis (snd (utils.set_access_token (PyStr "AT2") (PyInt 60)
                           Scenario.after_callback)))
    "forest:sso:token:{access_token}" = Some "AT2" /\
  Redis.ttl (redis (snd (utils.set_access_token (PyStr "AT2") (PyInt 60)
                           Scenario.after_callback)))
    "forest:sso:token:{access_token}" = 60.
Proof.
  destruct (set_access_token_writes_the_template_key "AT2" (PyInt 60)
              Scenario.after_callback
              (snd (utils.set_access_token (PyStr "AT2") (PyInt 60) Scenario.after_callback)))
    as (H1 & H2 & _); [vm_compute; reflexivity|].
  split; [exact H1|]. apply (H2 60); [reflexivity|discriminate].
Defined.

(** A token that is [None], a boolean, an integer, a list or a dict
    makes [set_access_token] and [set_refresh_token] raise in their debug
    line ([ValueError] for a boolean or an integer, which take no
    precision; [TypeError] for the others), before the cache is
    touched. *)
Theorem token_stores_reject_non_strings v other w :
  v = PyNone \/ (exists b, v = PyBool b) \/ (exists z, v = PyInt z) \/
  (exists l, v = PyList l) \/ (exists d, v = PyDict d) ->
  exists msg,
    let e := match v with
             | PyBool _ | PyInt _ => ValueError msg
             | _ => TypeError msg
             end in
    utils.set_access_token v other w = (Raise e, w) /\
    utils.set_refresh_token other v w = (Raise e, w).
Proof.
  unfold utils.set_access_token, utils.set_refresh_token, bind, lift_o.
  intros [->|[[b ->]|[[z ->]|[[l ->]|[d ->]]]]]; cbn [Py.format_dot50];
    eexists; split; reflexivity.
Qed.

Lemma token_stores_reject_non_strings_witness :
  exists msg,
    utils.set_access_token PyNone (PyInt 60) Stub.world0 = (Raise (TypeError msg), Stub.world0) /\
    utils.set_refresh_token (PyInt 60) PyNone Stub.world0 = (Raise (TypeError msg), Stub.world0).
Proof.
  apply (token_stores_reject_non_strings PyNone (PyInt 60) Stub.world0).
  left. reflexivity.
Defined.

(** [has_token_expired] answers [True] only for a key that is still in
    the cache, with an expiry, whose TTL reads 0; once the key has expired
    and is gone the answer is [KeyError], never [True]. *)
Theorem has_token_expired_true_means_present key w w' :
  utils.has_token_expired key w = (Ret true, w') ->
  w' = w /\ Redis.ttl (redis w) key = 0 /\
  exists v d, Redis.live (redis w) key = Some (Redis.Entry v (Some d)) /\ Redis.now (redis w) < d.
Proof.
  rewrite has_token_expired_run.
  destruct (ttl_cases (redis w) key) as [[T _]|[[T _]|[T L]]].
  - rewrite T. cbn. discriminate.
  - rewrite T. cbn. discriminate.
  - destruct (Z.eqb_spec (Redis.ttl (redis w) key) (-2)); [lia|].
    destruct (Z.eqb_spec (Redis.ttl (redis w) key) (-1)); [lia|].
    destruct (Z.leb_spec (Redis.ttl (redis w) key) 0); [|discriminate].
    intros [= <-]. split; [reflexivity|]. split; [lia|exact L].
Qed.

Lemma has_token_expired_true_witness :
  Redis.ttl (redis Scenario.ttl_world) "due" = 0 /\
  exists v d, Redis.live (redis Scenario.ttl_world) "due" = Some (Redis.Entry v (Some d))
              /\ Redis.now (redis Scenario.ttl_world) < d.
Proof.
  apply (has_token_expired_true_means_present "due" Scenario.ttl_world Scenario.ttl_world).
  vm_compute. reflexivity.
Defined.

(** ** More on the exchange *)

(** What [json_or_raise_for_status] accepts: a JSON object with a
    non-empty [access_token], whatever the HTTP status; or one without,
    if its [error] is absent or null and the status is below 400.  The
    accepted object is returned as it is. *)
Theorem json_or_raise_for_status_accepts response w d :
  utils.json_or_raise_for_status response w = (Ret d, w) <->
  json response = Ret d /\
  exists kv, d = PyDict kv /\
    (Py.truthy (default PyNone (Str.assoc "access_token" kv)) = true \/
     (default PyNone (Str.assoc "error" kv) = PyNone /\ status response < 400)).
Proof.
  rewrite json_or_raise_for_status_run. unfold checked_json. split.
  - intros H. apply (f_equal fst) in H. cbn [fst] in H.
    destruct (json response) as [d'|e]; [|destruct e; discriminate H].
    destruct d' as [| | | | |kv]; try discriminate H.
    cbn [Py.get obind] in H.
    destruct (Py.truthy (default PyNone (Str.assoc "access_token" kv))) eqn:T.
    + injection H as <-. split; [reflexivity|]. exists kv. split; [reflexivity|now left].
    + destruct (default PyNone (Str.assoc "error" kv)) eqn:E; try discriminate H.
      destruct (Z.leb_spec 400 (status response)); [discriminate H|].
      injection H as <-. split; [reflexivity|]. exists kv. split; [reflexivity|].
      right. now split.
  - intros (-> & kv & -> & H). cbn [Py.get obind].
    destruct H as [T|[E S]].
    + now rewrite T.
    + destruct (Py.truthy (default PyNone (Str.assoc "access_token" kv))); [reflexivity|].
      rewrite E. destruct (Z.leb_spec 400 (status response)); [lia|reflexivity].
Qed.

(** A body that is not JSON, and an object that reports an [error]
    without carrying an [access_token], are both turned into 400. *)
Theorem json_or_raise_for_status_rejects response w :
  (forall msg, json response = Raise (JSONDecodeError msg) ->
     utils.json_or_raise_for_status response w = (Raise (HTTPBadRequest (PyStr msg)), w)) /\
  (forall kv e, json response = Ret (PyDict kv) ->
     Py.truthy (default PyNone (Str.assoc "access_token" kv)) = false ->
     Str.assoc "error" kv = Some e -> e <> PyNone ->
     utils.json_or_raise_for_status response w = (Raise (HTTPBadRequest (PyDict kv)), w)).
Proof.
  rewrite json_or_raise_for_status_run. unfold checked_json. split.
  - intros msg ->. reflexivity.
  - intros kv e -> T E Hne. cbn [Py.get obind]. rewrite T, E.
    destruct e; [congruence|reflexivity..].
Qed.

Lemma json_or_raise_for_status_rejects_witness :
  utils.json_or_raise_for_status
    (Response 401 (Ret (PyDict [("error", PyStr "invalid_grant")]))) Stub.world0
  = (Raise (HTTPBadRequest (PyDict [("error", PyStr "invalid_grant")])), Stub.world0).
Proof.
  apply (proj2 (json_or_raise_for_status_rejects
                  (Response 401 (Ret (PyDict [("error", PyStr "invalid_grant")]))) Stub.world0)
           [("error", PyStr "invalid_grant")] (PyStr "invalid_grant"));
    solve [reflexivity | discriminate].
Defined.

(** ** More on the cache keys *)

(** Two states never share a cache entry: the key made for a state
    determines the state. *)
Theorem code_verifier_key_injective s1 s2 k :
  Str.format avanpost.CODE_VERIFIER_REDIS_KEY [("state", s1)] = Ret k ->
  Str.format avanpost.CODE_VERIFIER_REDIS_KEY [("state", s2)] = Ret k ->
  s1 = s2.
Proof.
  rewrite !format_code_verifier_key. intros [= <-] [= E].
  symmetry. exact (String.app_inj _ _ _ E).
Qed.

Lemma code_verifier_key_injective_witness :
  Scenario.state = Scenario.state.
Proof.
  apply (code_verifier_key_injective Scenario.state Scenario.state
           ("forest:sso:avanpost:code_verifier:" ++ Scenario.state)); reflexivity.
Defined.

(** ** More on the verifier and the challenge *)

Lemma length_append (a b : string) :
  String.length (a ++ b) = (String.length a + String.length b)%nat.
Proof.
  induction a as [|x a IH]; [reflexivity|].
  rewrite append_cons. cbn [String.length]. now rewrite IH.
Qed.

Lemma length_filter_le p s : (String.length (Str.filter p s) <= String.length s)%nat.
Proof.
  induction s as [|c s IH]; [reflexivity|]. cbn [Str.filter String.length].
  destruct (p c); cbn [String.length]; lia.
Qed.

Lemma length_string_of_list_ascii l :
  String.length (string_of_list_ascii l) = length l.
Proof. induction l as [|c l IH]; [reflexivity|]. cbn. now rewrite IH. Qed.

Lemma nopad_length bs :
  String.length (Base64.base64url_nopad bs) = ((4 * String.length bs + 2) / 3)%nat.
Proof.
  induction bs as [|a|a b|a b c r IH] using string_ind3;
    cbn [Base64.base64url_nopad String.length]; try reflexivity.
  rewrite IH.
  replace (4 * S (S (S (String.length r))) + 2)%nat
    with ((4 * String.length r + 2) + 4 * 3)%nat by lia.
  rewrite Nat.div_add by lia. lia.
Qed.

Lemma sub_non_alnum_b64encode bs :
  Str.sub_non_alnum (Base64.urlsafe_b64encode bs)
  = Str.filter Str.is_alnum (Base64.base64url_nopad bs).
Proof.
  unfold Str.sub_non_alnum.
  induction bs as [|a|a b|a b c r IH] using string_ind3;
    cbn [Base64.urlsafe_b64encode Base64.base64url_nopad Str.filter]; try reflexivity.
  now rewrite IH.
Qed.

Lemma last_sextet_alnum a :
  Str.is_alnum (Base64.sextet 2 (Base64.group3 a zero zero)) = true.
Proof. destruct a as [[] [] [] [] [] [] [] []]; vm_compute; reflexivity. Qed.

Lemma filter_nopad_nonempty bs :
  (String.length bs mod 3 = 1)%nat ->
  (1 <= String.length (Str.filter Str.is_alnum (Base64.base64url_nopad bs)))%nat.
Proof.
  induction bs as [|a|a b|a b c r IH] using string_ind3; cbn [String.length].
  - cbn. discriminate.
  - intros _. cbn [Base64.base64url_nopad Str.filter].
    rewrite last_sextet_alnum.
    destruct (Str.is_alnum _); cbn [String.length]; lia.
  - cbn. discriminate.
  - intros H.
    assert (H' : (String.length r mod 3 = 1)%nat).
    { replace (S (S (S (String.length r)))) with (String.length r + 1 * 3)%nat in H by lia.
      now rewrite Nat.Div0.mod_add in H. }
    specialize (IH H'). cbn [Base64.base64url_nopad Str.filter].
    repeat (destruct (Str.is_alnum _); cbn [String.length]); lia.
Qed.

(** [get_code_verifier], and so [generate_state], uses forty bytes of
    entropy and returns between 1 and 54 characters, all of them letters
    or digits: the padding and every [-] and [_] of the encoding are
    dropped, so the text can be much shorter than the 54 characters the
    forty bytes encode to. *)
Theorem get_code_verifier_shape outside w :
  exists v,
    utils.get_code_verifier outside w = (Ret v, advance 40 w) /\
    utils.generate_state outside w = (Ret v, advance 40 w) /\
    Str.forallb Str.is_alnum v = true /\
    (1 <= String.length v <= 54)%nat.
Proof.
  exists (verifier_at outside (cursor w)).
  split; [apply get_code_verifier_run|]. split; [apply get_code_verifier_run|].
  split; [apply verifier_alnum|].
  unfold verifier_at. rewrite sub_non_alnum_b64encode.
  set (bs := string_of_list_ascii (map (entropy outside) (seq (cursor w) 40))).
  assert (L : String.length bs = 40%nat).
  { unfold bs. now rewrite length_string_of_list_ascii, length_map, length_seq. }
  split.
  - apply filter_nopad_nonempty. now rewrite L.
  - etransitivity; [apply length_filter_le|]. now rewrite nopad_length, L.
Qed.

Section DigestLength.
#[local] Transparent SHA256.digest.

Lemma be_bytes_length w x : String.length (SHA256.be_bytes w x) = w.
Proof. induction w as [|w IH]; [reflexivity|]. cbn [SHA256.be_bytes String.length]. now rewrite IH. Qed.

Lemma digest_length msg : String.length (SHA256.digest msg) = 32%nat.
Proof.
  unfold SHA256.digest, SHA256.digest_of.
  now rewrite !length_append, !be_bytes_length.
Qed.

End DigestLength.

(** The code challenge of any verifier is 43 characters of the
    base64url alphabet, without padding. *)
Theorem get_code_challenge_shape code_verifier w :
  exists c,
    utils.get_code_challenge code_verifier w = (Ret c, w) /\
    c = Base64.base64url_nopad (SHA256.digest code_verifier) /\
    String.length c = 43%nat /\
    Str.forallb is_b64url c = true /\ Url.free "=" c = true.
Proof.
  exists (Base64.base64url_nopad (SHA256.digest code_verifier)).
  split; [rewrite get_code_challenge_run; now rewrite remove_padding|].
  split; [reflexivity|]. split; [now rewrite nopad_length, digest_length|].
  split; [apply nopad_chars|]. apply b64url_free; [reflexivity|apply nopad_chars].
Qed.

(** ** More on the key set *)

Lemma index_by_kid_sound ks : forall acc keys kid jwk,
  utils.index_by_kid Ret ks acc = Ret keys ->
  Py.lookup kid keys = Some jwk ->
  (In jwk ks /\ exists kid', Py.getitem jwk "kid" = Ret kid' /\ Py.key_eqb kid kid' = true)
  \/ Py.lookup kid acc = Some jwk.
Proof.
  induction ks as [|j rest IH]; intros acc keys kid jwk H L.
  - cbn in H. injection H as <-. now right.
  - cbn [utils.index_by_kid] in H.
    destruct (Py.getitem j "kid") as [k|] eqn:G; [|discriminate H].
    cbn [obind] in H. unfold Py.store in H.
    destruct (Py.hashable k); [|discriminate H]. cbn [obind] in H.
    destruct (IH _ _ _ _ H L) as [(Hin & kid' & Hk & He)|Hacc].
    + left. split; [now right|]. now exists kid'.
    + cbn [Py.lookup] in Hacc. destruct (Py.key_eqb kid k) eqn:E.
      * injection Hacc as <-. left. split; [now left|]. now exists k.
      * now right.
Qed.

(** The key that [request_public_key] returns is made from one of the
    keys the issuer has just listed, and that key's [kid] is the one in
    the token's header; one call is logged for it. *)
Theorem request_public_key_returns_a_listed_key config outside token w key w' :
  utils.request_public_key config outside token w = (Ret key, w') ->
  w' = logged (jwks_fetch config) w /\
  exists r jwks ks header kid jwk kid',
    http outside (trace w) (jwks_fetch config) = Answered r /\ status r < 400 /\
    json r = Ret jwks /\ obind (Py.getitem jwks "keys") Py.iter = Ret ks /\
    get_unverified_header outside token = Ret header /\
    Py.getitem header "kid" = Ret kid /\
    In jwk ks /\ Py.getitem jwk "kid" = Ret kid' /\ Py.key_eqb kid kid' = true /\
    from_jwk outside jwk = Ret key.
Proof.
  unfold utils.request_public_key, utils.request_json_web_keys. fold (jwks_fetch config).
  intros H.
  apply bind_inv in H as (jwks & w1 & Hj & H).
  apply bind_inv in Hj as (r & w0 & Hs & Hj).
  rewrite send_run in Hs.
  destruct (http outside (trace w) (jwks_fetch config)) as [e|r'] eqn:Hh; [discriminate Hs|].
  injection Hs as -> <-.
  apply bind_inv in Hj as ([] & w0' & Hst & Hj).
  unfold utils.raise_for_status in Hst.
  destruct (Z.leb_spec 400 (status r)); [discriminate Hst|]. injection Hst as <-.
  unfold lift_o in Hj. injection Hj as Hj <-.
  apply bind_inv in H as (ks' & w2 & Hk & H). unfold lift_o in Hk. injection Hk as Hk <-.
  apply bind_inv in H as (ks & w2 & Hi & H). unfold lift_o in Hi. injection Hi as Hi <-.
  apply bind_inv in H as (keys & w2 & Hx & H). unfold lift_o in Hx. injection Hx as Hx <-.
  apply bind_inv in H as (header & w2 & Hhd & H). unfold lift_o in Hhd. injection Hhd as Hhd <-.
  apply bind_inv in H as (kid & w2 & Hkid & H). unfold lift_o in Hkid. injection Hkid as Hkid <-.
  apply bind_inv in H as (jwk & w2 & Hsub & H). unfold lift_o in Hsub. injection Hsub as Hsub <-.
  unfold lift_o in H. injection H as H <-.
  split; [reflexivity|].
  unfold Py.subscript in Hsub. destruct (Py.hashable kid); [|discriminate Hsub].
  destruct (Py.lookup kid keys) as [jwk'|] eqn:L; [|discriminate Hsub].
  injection Hsub as ->.
  destruct (index_by_kid_sound _ _ _ _ _ Hx L) as [(Hin & kid' & Hk' & He)|Hnil];
    [|discriminate Hnil].
  exists r, jwks, ks, header, kid, jwk, kid'.
  repeat split; try assumption. now rewrite Hk.
Qed.

Lemma request_public_key_witness :
  exists r jwks ks header kid jwk kid',
    http Stub.outside (trace Stub.world0) (jwks_fetch Stub.config) = Answered r /\
    status r < 400 /\
    json r = Ret jwks /\ obind (Py.getitem jwks "keys") Py.iter = Ret ks /\
    get_unverified_header Stub.outside "k1.admin" = Ret header /\
    Py.getitem header "kid" = Ret kid /\
    In jwk ks /\ Py.getitem jwk "kid" = Ret kid' /\ Py.key_eqb kid kid' = true /\
    from_jwk Stub.outside jwk = Ret (PubKey "k1").
Proof.
  apply (request_public_key_returns_a_listed_key Stub.config Stub.outside "k1.admin"
           Stub.world0 (PubKey "k1") (logged (jwks_fetch Stub.config) Stub.world0)).
  vm_compute. reflexivity.
Defined.

(** ** The request that is let through *)

(** A request whose token verifies, is not revoked and carries the
    wanted group reaches the handler with the decoded claims stored under
    the configured property and, when [store_token] names a key, the raw
    token stored under that key; the handler's result or error is the
    middleware's. *)
Theorem middleware_delegates_with_context config outside check_request o request_property
    request handler w log tok decoded w3 :
  reaches_attach config outside check_request o request w tok decoded w3 ->
  utils.has_permissions config decoded = Ret true ->
  let attached :=
    match middleware.store_token o with
    | PyStr (String c k) => <[String c k := PyStr tok]> (<[request_property := decoded]> (ctx w3))
    | _ => <[request_property := decoded]> (ctx w3)
    end in
  let w4 := set_ctx attached w3 in
  fst (middleware.jwt_middleware config outside check_request o request_property request
         handler (w, log)) = fst (handler request w4) /\
  fst (snd (middleware.jwt_middleware config outside check_request o request_property request
         handler (w, log))) = snd (handler request w4) /\
  ctx w4 !! request_property =
    match middleware.store_token o with
    | PyStr (String c k) =>
        if bool_decide (String c k = request_property) then Some (PyStr tok) else Some decoded
    | _ => Some decoded
    end.
Proof.
  intros (Hm & Hw & Htok & getter & w1 & w2 & Hg & Hget & Hdec & Hrev) Hperm attached w4.
  assert (E : exists lg,
    middleware.jwt_middleware config outside check_request o request_property request
      handler (w, log) = (fst (handler request w4), (snd (handler request w4), lg))).
  2:{ destruct E as (lg & ->). cbn [fst snd].
      split; [reflexivity|]. split; [reflexivity|].
      unfold w4, attached, set_ctx. cbn [ctx].
      destruct (middleware.store_token o) as [| | |[|c s]| |];
        try (now rewrite lookup_insert_eq).
      rewrite lookup_insert. destruct (decide (String c s = request_property)) as [->|N].
      - now rewrite bool_decide_eq_true_2.
      - rewrite bool_decide_eq_false_2 by assumption. now rewrite lookup_insert_eq. }
  unfold middleware.jwt_middleware.
  unfold bind at 1. unfold enter at 1. cbn [fst snd]. rewrite Hm, Hw.
  unfold bind at 1. unfold enter at 1. cbn [fst snd].
  unfold bind at 1. rewrite Hg, lift_run, Hget. cbn [fst snd].
  replace (negb (Str.truthy (Some tok))) with false by (now destruct tok).
  unfold bind at 1. unfold enter at 1. cbn [fst snd].
  unfold bind at 1. unfold try_except. rewrite lift_run. cbn [Str.of_opt].
  rewrite Hdec. cbn [fst snd].
  unfold bind at 1. unfold enter at 1. cbn [fst snd].
  unfold bind at 1.
  replace ((match middleware.is_revoked o with
            | Some f => r <- lift (f request tok) ;; ret (Py.truthy r)
            | None => ret false
            end) (w2, ((((log ++ [WHITELIST_CHECK]) ++ [TOKEN_EXTRACT]) ++ [TOKEN_VERIFY])
                       ++ [REVOCATION_CHECK])%list))
    with (@Ret bool false, (w3, ((((log ++ [WHITELIST_CHECK]) ++ [TOKEN_EXTRACT]) ++ [TOKEN_VERIFY])
                       ++ [REVOCATION_CHECK])%list)).
  2:{ destruct (middleware.is_revoked o) as [f|].
      - destruct Hrev as (r & Hf & Hr). unfold bind. rewrite lift_run, Hf. cbn [fst snd].
        unfold ret. now rewrite Hr.
      - now subst w3. }
  unfold bind at 1. unfold enter at 1. cbn [fst snd].
  unfold bind at 1. rewrite lift_run. cbn [fst snd request_setitem].
  unfold bind at 1. unfold enter at 1. cbn [fst snd].
  unfold bind at 1. rewrite lift_run. unfold lift_o at 1 2. cbn [fst snd].
  rewrite Hperm. cbn [negb].
  unfold bind at 1.
  assert (Hst : exists tail, forall lg,
    (match middleware.store_token o with
     | PyStr (String c s) =>
         enter CONTEXT_ATTACH ;;
         lift (request_setitem (String c s) (PyStr tok))
     | _ => ret tt
     end) (set_ctx (<[request_property := decoded]> (ctx w3)) w3, lg)
    = (Ret tt, (w4, (lg ++ tail)%list))).
  { unfold w4, attached.
    destruct (middleware.store_token o) as [| | |[|c s]| |];
      try (exists []; intros lg; unfold ret; now rewrite app_nil_r).
    exists [CONTEXT_ATTACH]. intros lg. unfold bind, enter. cbn [fst snd].
    now rewrite lift_run. }
  destruct Hst as (tail & Hst). rewrite Hst.
  unfold bind, enter. cbn [fst snd]. rewrite lift_run. cbn [fst snd].
  now eexists.
Qed.

Lemma middleware_delegates_witness :
  fst (StubMiddleware.run "k1.admin") = Ret (RespOther 200 "ok").
Proof.
  apply (proj1 (middleware_delegates_with_context Stub.config Stub.outside Stub.no_whitelist
           StubMiddleware.options "payload" (Stub.api_request "k1.admin") Stub.handler
           Stub.world0 [START] "k1.admin"
           (PyDict [("sub", PyStr "u1");
                    ("groups", PyList [PyDict [("name", PyStr "parma_ml")]])])
           (snd (utils.decode_avanpost_jwt Stub.config Stub.outside "k1.admin" Stub.world0))
           ltac:(split; [reflexivity|]; split; [reflexivity|]; split; [discriminate|];
                 exists Stub.bearer, Stub.world0,
                   (snd (utils.decode_avanpost_jwt Stub.config Stub.outside "k1.admin"
                           Stub.world0));
                 split; [reflexivity|]; split; [reflexivity|];
                 split; [vm_compute; reflexivity|];
                 exists PyNone; split; reflexivity)
           eq_refl)).
Defined.
